(** * The benchmark runner and the leaderboard generator

    A shallow embedding of [evaluation-framework/run_benchmark.py] and of the
    aggregation half of [evaluation-framework/generate_leaderboard.py].

    - Python values that travel through [json] are the type [json]; a [dict]
      is an association list in insertion order, as CPython keeps it.
    - Python exceptions are values of [exn]; code that may raise returns a
      [res]; code that also prints, spawns or writes runs in the monad [M],
      which threads the trace of effects performed so far.
    - Everything the interpreter and the operating system answer (the file
      system, [subprocess.run], [json.loads], the clock) is a field of the
      record [Host].  A host is one snapshot: what a verification script
      does to the disk while it runs is outside the model.
    - Binary floating point is idealised: a Python [float] is an exact
      rational, kept in lowest terms by the arithmetic. *)

From Stdlib Require Import List String Ascii Bool ZArith QArith Qminmax Lia.
From Stdlib Require Import Qround Qabs Qpower Lqa.
From Stdlib Require Import Permutation Sorted Mergesort.
Import ListNotations.

Local Open Scope list_scope.
Local Open Scope string_scope.

(** ** Values *)

#[warnings="-register-all"]
Inductive json : Type :=
| JNull                                  (* None *)
| JBool (b : bool)
| JInt (z : Z)
| JFloat (q : Q)
| JStr (s : string)
| JArr (xs : list json)
| JObj (kvs : list (string * json)).

Definition path := string.

(** [p / name] of pathlib. *)
Definition path_join (p : path) (name : string) : path := p ++ "/" ++ name.

Declare Scope path_scope.
Delimit Scope path_scope with path.
Notation "p // s" := (path_join p s) (at level 40, left associativity) : path_scope.
Local Open Scope path_scope.

(** ** Exceptions *)

Inductive exn_class : Type :=
| JSONDecodeError
| TimeoutExpired
| ValueError
| TypeError
| AttributeError
| KeyError
| OSError
| RuntimeError
| OverflowError
| ZeroDivisionError.

(** Every class above derives from [Exception]; [exn_msg] is [str(e)]. *)
Record exn : Type := Exn { exn_cls : exn_class; exn_msg : string }.

Inductive res (A : Type) : Type :=
| Ok (a : A)
| Raise (e : exn).
Arguments Ok {A} a.
Arguments Raise {A} e.

Definition res_bind {A B} (r : res A) (k : A -> res B) : res B :=
  match r with
  | Ok a => k a
  | Raise e => Raise e
  end.

Notation "'do' x <- r ; k" := (res_bind r (fun x => k))
  (at level 10, x name, r at level 100, k at level 200).

Fixpoint map_res {A B} (f : A -> res B) (xs : list A) : res (list B) :=
  match xs with
  | [] => Ok []
  | x :: xs' => do y <- f x; do ys <- map_res f xs'; Ok (y :: ys)
  end.

(** ** The Python operations the two scripts use *)

Definition type_name (v : json) : string :=
  match v with
  | JNull => "NoneType"
  | JBool _ => "bool"
  | JInt _ => "int"
  | JFloat _ => "float"
  | JStr _ => "str"
  | JArr _ => "list"
  | JObj _ => "dict"
  end.

Fixpoint dict_get (k : string) (d : list (string * json)) : option json :=
  match d with
  | [] => None
  | (k', v) :: d' => if String.eqb k k' then Some v else dict_get k d'
  end.

(** [d[k] = v]: an existing key keeps its place, a new key goes last. *)
Fixpoint dict_set (k : string) (v : json) (d : list (string * json))
  : list (string * json) :=
  match d with
  | [] => [(k, v)]
  | (k', v') :: d' =>
      if String.eqb k k' then (k', v) :: d' else (k', v') :: dict_set k v d'
  end.

(** [v.get(k, dflt)]; only a dict has the method. *)
Definition py_get (v : json) (k : string) (dflt : json) : res json :=
  match v with
  | JObj d => Ok (match dict_get k d with Some x => x | None => dflt end)
  | _ => Raise (Exn AttributeError
                  ("'" ++ type_name v ++ "' object has no attribute 'get'"))
  end.

(** [v[k] = x] with a string [k]. *)
Definition py_setitem (v : json) (k : string) (x : json) : res json :=
  match v with
  | JObj d => Ok (JObj (dict_set k x d))
  | JArr _ => Raise (Exn TypeError
                       "list indices must be integers or slices, not str")
  | _ => Raise (Exn TypeError
                  ("'" ++ type_name v ++ "' object does not support item assignment"))
  end.

(** [v[k]] with a string [k]. *)
Definition py_getitem (v : json) (k : string) : res json :=
  match v with
  | JObj d =>
      match dict_get k d with
      | Some x => Ok x
      | None => Raise (Exn KeyError ("'" ++ k ++ "'"))
      end
  | JArr _ => Raise (Exn TypeError
                       "list indices must be integers or slices, not str")
  | JStr _ => Raise (Exn TypeError "string indices must be integers, not 'str'")
  | _ => Raise (Exn TypeError
                  ("'" ++ type_name v ++ "' object is not subscriptable"))
  end.

(** [s in t] on strings: [s] occurs in [t]. *)
Fixpoint str_contains (s t : string) : bool :=
  String.prefix s t ||
  match t with
  | EmptyString => false
  | String _ t' => str_contains s t'
  end.

Definition is_str (s : string) (v : json) : bool :=
  match v with JStr s' => String.eqb s s' | _ => false end.

(** [k in v] with a string [k]. *)
Definition py_contains (k : string) (v : json) : res bool :=
  match v with
  | JObj d => Ok (match dict_get k d with Some _ => true | None => false end)
  | JArr xs => Ok (existsb (is_str k) xs)
  | JStr t => Ok (str_contains k t)
  | _ => Raise (Exn TypeError
                  ("argument of type '" ++ type_name v ++ "' is not iterable"))
  end.

Fixpoint chars (s : string) : list json :=
  match s with
  | EmptyString => []
  | String c s' => JStr (String c EmptyString) :: chars s'
  end.

(** The elements [list.extend(v)] would append. *)
Definition py_iter (v : json) : res (list json) :=
  match v with
  | JArr xs => Ok xs
  | JStr s => Ok (chars s)
  | JObj d => Ok (map (fun kv => JStr (fst kv)) d)
  | _ => Raise (Exn TypeError
                  ("'" ++ type_name v ++ "' object is not iterable"))
  end.

Definition is_nil {A} (l : list A) : bool :=
  match l with [] => true | _ => false end.

(** Truth value testing. *)
Definition truthy (v : json) : bool :=
  match v with
  | JNull => false
  | JBool b => b
  | JInt z => negb (Z.eqb z 0)
  | JFloat q => negb (Qeq_bool q 0)
  | JStr s => negb (String.eqb s "")
  | JArr xs => negb (is_nil xs)
  | JObj d => negb (is_nil d)
  end.

(** The number a value stands for in arithmetic ([bool] is a subtype of
    [int]); [None] for a value [+] and [<] reject. *)
Definition as_number (v : json) : option Q :=
  match v with
  | JBool b => Some (if b then 1 else 0)%Q
  | JInt z => Some (inject_Z z)
  | JFloat q => Some q
  | _ => None
  end.

(** ** Effects *)

(** What the scripts print, by format string rather than by rendered text. *)
Inductive message : Type :=
| MsgRunning (name : string)             (* Running benchmark: {name} *)
| MsgPath (p : path)                     (* Path: {benchmark_path} *)
| MsgStatus (passed : bool) (score : json)   (* {status} - Score: {score}/100 *)
| MsgAvailable (n : nat)                 (* Available benchmarks ({n}): *)
| MsgItem (name : string)                (*   - {benchmark} *)
| MsgSaved (p : path)                    (* Results saved to: {filepath} *)
| MsgSummary (passed total : nat)        (* Summary: {passed}/{total} ... *)
| MsgJson (v : json)                     (* json.dumps(result, indent=2) *)
| MsgHelp                                (* parser.print_help() *)
| MsgWarnLoad (p : path) (e : exn).      (* Warning: Could not load {p}: {e} *)

Inductive event : Type :=
| EvPrint (m : message)
| EvSpawn (script cwd : path)            (* subprocess.run([script], cwd=cwd) *)
| EvMkdir (p : path)
| EvWrite (p : path) (v : json).         (* open(p, "w") and json.dump(v, f) *)

Definition trace := list event.

(** A computation that may raise and that extends the trace it is given. *)
Definition M (A : Type) : Type := trace -> res A * trace.

Definition ret {A} (a : A) : M A := fun tr => (Ok a, tr).

Definition bind {A B} (m : M A) (k : A -> M B) : M B :=
  fun tr =>
    match m tr with
    | (Ok a, tr') => k a tr'
    | (Raise e, tr') => (Raise e, tr')
    end.

Definition lift {A} (r : res A) : M A := fun tr => (r, tr).

Definition emit (e : event) : M unit := fun tr => (Ok tt, (tr ++ [e])%list).

Definition print (m : message) : M unit := emit (EvPrint m).

(** [try: body / except ...]: [handler e] is the clause that matches [e],
    or [None] when no clause does and [e] keeps propagating. *)
Definition try_except {A} (body : M A) (handler : exn -> option (M A)) : M A :=
  fun tr =>
    match body tr with
    | (Ok a, tr') => (Ok a, tr')
    | (Raise e, tr') =>
        match handler e with
        | Some h => h tr'
        | None => (Raise e, tr')
        end
    end.

Declare Scope eff_scope.
Delimit Scope eff_scope with eff.
Notation "x <- m ;; k" := (bind m (fun x => k))
  (at level 61, m at next level, right associativity) : eff_scope.
Notation "m ;; k" := (bind m (fun _ => k))
  (at level 61, right associativity) : eff_scope.
Local Open Scope eff_scope.

(** [for x in xs: body] with the loop state [acc] passed along. *)
Fixpoint for_each {A S} (xs : list A) (body : S -> A -> M S) (acc : S) : M S :=
  match xs with
  | [] => ret acc
  | x :: xs' => acc' <- body acc x ;; for_each xs' body acc'
  end.

(** ** The host *)

(** [subprocess.CompletedProcess] with captured text. *)
Record completed : Type := Completed {
  stdout : string;
  stderr : string;
  returncode : Z
}.

Record Host : Type := {
  fs_exists : path -> bool;                  (* Path.exists() *)
  fs_is_dir : path -> bool;                  (* Path.is_dir() *)
  fs_iterdir : path -> res (list string);    (* names of the children, in the
                                                order the OS lists them *)
  fs_glob : path -> string -> list string;   (* names matching the pattern *)
  fs_read : path -> res string;              (* open(p) and f.read() *)
  fs_mkdir : path -> res unit;               (* mkdir(parents, exist_ok) *)
  fs_write : path -> json -> res unit;       (* open(p, "w"), json.dump *)
  proc_run : path -> path -> res completed;  (* subprocess.run, timeout=300:
                                                raises TimeoutExpired on
                                                expiry *)
  json_loads : string -> res json;           (* json.loads *)
  py_repr : json -> string;                  (* str(v) of a non-string *)
  utcnow_iso : string;                       (* utcnow().isoformat() *)
  utcnow_stamp : string;                     (* strftime("%Y%m%d_%H%M%S") *)
  project_root : path                        (* Path(__file__).parent.parent *)
}.

(** [sorted] on a list of [str]. *)
Module StringOrder <: Orders.TotalLeBool.
Definition t := string.
Definition leb := String.leb.
Definition leb_total := String.leb_total.
End StringOrder.

Module StringSort := Mergesort.Sort StringOrder.

Definition sorted (l : list string) : list string := StringSort.sort l.

(** An f-string field [{v}]. *)
Definition fmt (h : Host) (v : json) : string :=
  match v with
  | JStr s => s
  | _ => py_repr h v
  end.

(** [sum(1 for r in results if r.get("passed", False))], the count both
    scripts take. *)
Fixpoint count_passed (results : list json) : res nat :=
  match results with
  | [] => Ok 0%nat
  | r :: rest =>
      do p <- py_get r "passed" (JBool false);
      do n <- count_passed rest;
      Ok (if truthy p then S n else n)
  end.

(** ** run_benchmark.py *)

Module RunBenchmark.

Record BenchmarkRunner : Type := {
  benchmarks_dir : path;
  results_dir : path
}.

Section Runner.

Variable h : Host.

Definition subprocess_run (script cwd : path) : M completed :=
  emit (EvSpawn script cwd) ;; lift (proc_run h script cwd).

Definition mkdir (p : path) : M unit :=
  emit (EvMkdir p) ;; lift (fs_mkdir h p).

Definition json_dump_to (p : path) (v : json) : M unit :=
  emit (EvWrite p v) ;; lift (fs_write h p v).

Definition timestamp_now : json := JStr (utcnow_iso h ++ "Z").

Definition BenchmarkRunner_init (benchmarks results : path) : M BenchmarkRunner :=
  mkdir results ;;
  ret {| benchmarks_dir := benchmarks; results_dir := results |}.

Definition error_result (benchmark_name msg : string) : json :=
  JObj [("benchmark", JStr benchmark_name);
        ("error", JStr msg);
        ("timestamp", timestamp_now)].

Definition invalid_json_result (benchmark_name : string) (result : completed) : json :=
  JObj [("benchmark", JStr benchmark_name);
        ("error", JStr "Invalid JSON output");
        ("stdout", JStr (stdout result));
        ("stderr", JStr (stderr result));
        ("exit_code", JInt (returncode result));
        ("timestamp", timestamp_now)].

Definition benchmark_path_of (self : BenchmarkRunner) (benchmark_name : string) : path :=
  benchmarks_dir self // benchmark_name.

Definition verify_script_of (self : BenchmarkRunner) (benchmark_name : string) : path :=
  benchmark_path_of self benchmark_name // "verification" // "verify.sh".

Definition run_benchmark (self : BenchmarkRunner) (benchmark_name : string) : M json :=
  let benchmark_path := benchmarks_dir self // benchmark_name in
  let verify_script := benchmark_path // "verification" // "verify.sh" in
  if negb (fs_exists h verify_script) then
    ret (error_result benchmark_name "verify.sh not found")
  else
    print (MsgRunning benchmark_name) ;;
    print (MsgPath benchmark_path) ;;
    try_except
      (result <- subprocess_run verify_script benchmark_path ;;
       output <- try_except
                   (lift (json_loads h (stdout result)))
                   (fun e => match exn_cls e with
                             | JSONDecodeError =>
                                 Some (ret (invalid_json_result benchmark_name result))
                             | _ => None
                             end) ;;
       output <- lift (py_setitem output "exit_code" (JInt (returncode result))) ;;
       output <- lift (py_setitem output "execution_time_ms" JNull) ;;
       ret output)
      (fun e => match exn_cls e with
                | TimeoutExpired =>
                    Some (ret (error_result benchmark_name "Execution timeout (300s)"))
                | _ =>
                    Some (ret (error_result benchmark_name
                                 ("Execution failed: " ++ exn_msg e)))
                end).

(** The loop of [list_benchmarks]: one [append] per qualifying child. *)
Definition qualifies (self : BenchmarkRunner) (name : string) : bool :=
  let path := benchmarks_dir self // name in
  fs_is_dir h path && fs_exists h (path // "verification" // "verify.sh").

Definition list_benchmarks (self : BenchmarkRunner) : M (list string) :=
  entries <- lift (fs_iterdir h (benchmarks_dir self)) ;;
  let benchmarks :=
    fold_left (fun benchmarks name =>
                 if qualifies self name then (benchmarks ++ [name])%list
                 else benchmarks)
              entries [] in
  ret (sorted benchmarks).

Definition save_result (self : BenchmarkRunner) (result : json) : M path :=
  benchmark_name <- lift (py_get result "benchmark" (JStr "unknown")) ;;
  let filename := fmt h benchmark_name ++ "_" ++ utcnow_stamp h ++ ".json" in
  let filepath := results_dir self // filename in
  json_dump_to filepath result ;;
  ret filepath.

(** The report dict of a sweep; its ["results"] list is the loop state. *)
Record Report : Type := {
  run_timestamp : json;
  total_benchmarks : nat;
  results : list json
}.

Definition report_json (r : Report) : json :=
  JObj [("run_timestamp", run_timestamp r);
        ("total_benchmarks", JInt (Z.of_nat (total_benchmarks r)));
        ("results", JArr (results r))].

Definition run_all_benchmarks (self : BenchmarkRunner) : M Report :=
  benchmarks <- list_benchmarks self ;;
  let stamp := timestamp_now in
  collected <- for_each benchmarks
    (fun collected benchmark =>
       result <- run_benchmark self benchmark ;;
       passed <- lift (py_get result "passed" (JBool false)) ;;
       score <- lift (py_get result "final_score" (JInt 0)) ;;
       print (MsgStatus (truthy passed) score) ;;
       ret (collected ++ [result])%list)
    [] ;;
  ret {| run_timestamp := stamp;
         total_benchmarks := List.length benchmarks;
         results := collected |}.

(** What [parser.parse_args()] hands to [main]. *)
Record Args : Type := {
  arg_benchmark : option string;
  arg_all : bool;
  arg_list : bool;
  arg_results_dir : path
}.

(** [if args.benchmark:] holds for a name that is given and not empty. *)
Definition given_benchmark (args : Args) : option string :=
  match arg_benchmark args with
  | Some name => if String.eqb name "" then None else Some name
  | None => None
  end.

Definition main (args : Args) : M Z :=
  let benchmarks_dir := project_root h // "benchmarks" in
  runner <- BenchmarkRunner_init benchmarks_dir (arg_results_dir args) ;;
  if arg_list args then
    benchmarks <- list_benchmarks runner ;;
    print (MsgAvailable (List.length benchmarks)) ;;
    for_each benchmarks (fun _ benchmark => print (MsgItem benchmark)) tt ;;
    ret 0%Z
  else if arg_all args then
    report <- run_all_benchmarks runner ;;
    let filepath :=
      arg_results_dir args // ("all_benchmarks_" ++ utcnow_stamp h ++ ".json") in
    json_dump_to filepath (report_json report) ;;
    print (MsgSaved filepath) ;;
    passed <- lift (count_passed (results report)) ;;
    let total := total_benchmarks report in
    print (MsgSummary passed total) ;;
    ret (if Nat.eqb passed total then 0%Z else 1%Z)
  else
    match given_benchmark args with
    | Some name =>
        result <- run_benchmark runner name ;;
        filepath <- save_result runner result ;;
        print (MsgSaved filepath) ;;
        print (MsgJson result) ;;
        passed <- lift (py_get result "passed" (JBool false)) ;;
        ret (if truthy passed then 0%Z else 1%Z)
    | None =>
        print MsgHelp ;;
        ret 1%Z
    end.

(** The status of the process: [sys.exit(main())], and 1 when an exception
    reaches the top level. *)
Definition exit_status (r : res Z) : Z :=
  match r with
  | Ok code => code
  | Raise _ => 1%Z
  end.

End Runner.

End RunBenchmark.

(** ** generate_leaderboard.py *)

Module GenerateLeaderboard.

Record LeaderboardGenerator : Type := {
  results_dir : path
}.

(** Values a dict accepts as keys. *)
Definition hashable (v : json) : bool :=
  match v with
  | JArr _ | JObj _ => false
  | _ => true
  end.

(** [==] between two keys: numbers (and booleans) by value, strings and
    [None] with their own kind only. *)
Definition key_eqb (a b : json) : bool :=
  match a, b with
  | JNull, JNull => true
  | JStr s, JStr t => String.eqb s t
  | _, _ =>
      match as_number a, as_number b with
      | Some x, Some y => Qeq_bool x y
      | _, _ => false
      end
  end.

(** A [defaultdict(list)] in insertion order. *)
Definition groups := list (json * list json).

Fixpoint group_lookup (k : json) (g : groups) : option (list json) :=
  match g with
  | [] => None
  | (k', rs) :: g' => if key_eqb k k' then Some rs else group_lookup k g'
  end.

(** [grouped[k].append(r)]. *)
Fixpoint group_append (k r : json) (g : groups) : groups :=
  match g with
  | [] => [(k, [r])]
  | (k', rs) :: g' =>
      if key_eqb k k' then (k', (rs ++ [r])%list) :: g'
      else (k', rs) :: group_append k r g'
  end.

Fixpoint group_loop (results : list json) (grouped : groups) : res groups :=
  match results with
  | [] => Ok grouped
  | result :: rest =>
      do benchmark <- py_get result "benchmark" (JStr "unknown");
      if hashable benchmark then
        group_loop rest (group_append benchmark result grouped)
      else
        Raise (Exn TypeError ("unhashable type: '" ++ type_name benchmark ++ "'"))
  end.

Definition group_by_benchmark (results : list json) : res groups :=
  group_loop results [].

Definition Qltb (a b : Q) : bool := negb (Qle_bool b a).

(** The [TypeError] of [+] and of [<] on a value that is not a number (the
    text is abridged: CPython also names the other operand). *)
Definition not_a_number (v : json) : exn :=
  Exn TypeError ("unsupported operand type(s): '" ++ type_name v ++ "'").

(** [sum(scores)], from the start value 0. *)
Fixpoint py_sum (scores : list json) (acc : Q) : res Q :=
  match scores with
  | [] => Ok acc
  | v :: rest =>
      match as_number v with
      | Some x => py_sum rest (Qred (acc + x))
      | None => Raise (not_a_number v)
      end
  end.

(** [min] and [max] keep the first of equal candidates: the running best
    is replaced only by a strictly better item. *)
Fixpoint py_best (better : Q -> Q -> bool) (best : json) (rest : list json)
  : res json :=
  match rest with
  | [] => Ok best
  | v :: rest' =>
      match as_number v, as_number best with
      | Some x, Some b => py_best better (if better x b then v else best) rest'
      | None, _ => Raise (not_a_number v)
      | _, None => Raise (not_a_number best)
      end
  end.

Definition py_min (scores : list json) : res json :=
  match scores with
  | [] => Raise (Exn ValueError "min() arg is an empty sequence")
  | v :: rest => py_best Qltb v rest
  end.

Definition py_max (scores : list json) : res json :=
  match scores with
  | [] => Raise (Exn ValueError "max() arg is an empty sequence")
  | v :: rest => py_best (fun x b => Qltb b x) v rest
  end.

Definition zero_statistics : json :=
  JObj [("count", JInt 0);
        ("avg_score", JInt 0);
        ("min_score", JInt 0);
        ("max_score", JInt 0);
        ("pass_rate", JInt 0)].

Definition calculate_statistics (results : list json) : res json :=
  if is_nil results then Ok zero_statistics
  else
    do scores <- map_res (fun r => py_get r "final_score" (JInt 0)) results;
    do passed <- count_passed results;
    let n := inject_Z (Z.of_nat (List.length results)) in
    do total <- py_sum scores 0;
    do lo <- py_min scores;
    do hi <- py_max scores;
    Ok (JObj [("count", JInt (Z.of_nat (List.length results)));
              ("avg_score", JFloat (Qred (total / n)));
              ("min_score", lo);
              ("max_score", hi);
              ("pass_rate",
               JFloat (Qred ((inject_Z (Z.of_nat passed) / n) * 100)))]).

(** [a <= b] between two dict keys of one kind: strings character by
    character, numbers (and booleans) by value.  Keys of two kinds are not
    ordered ([<] raises on them); the answer given for them is never used. *)
Definition key_leb (a b : json) : bool :=
  match a, b with
  | JStr s, JStr t => String.leb s t
  | _, _ =>
      match as_number a, as_number b with
      | Some x, Some y => Qle_bool x y
      | _, _ => true
      end
  end.

Definition key_leb_total (a b : json) : key_leb a b = true \/ key_leb b a = true.
Proof.
  assert (Hq : forall x y, Qle_bool x y = true \/ Qle_bool y x = true).
  { intros x y. rewrite !Qle_bool_iff.
    destruct (Qlt_le_dec x y) as [Hlt | Hle]; [left | now right].
    now apply Qlt_le_weak. }
  destruct a as [| b1 | z1 | q1 | s1 | xs1 | d1],
           b as [| b2 | z2 | q2 | s2 | xs2 | d2];
    simpl; auto using String.leb_total.
Qed.

(** The items of a dict, ordered by key: tuples compare by their first
    components, which differ between two items of one dict. *)
Module ItemOrder <: Orders.TotalLeBool.
Definition t : Type := (json * list json)%type.
Definition leb (x y : t) : bool := key_leb (fst x) (fst y).
Definition leb_total (x y : t) : leb x y = true \/ leb y x = true :=
  key_leb_total (fst x) (fst y).
End ItemOrder.

Module ItemSort := Mergesort.Sort ItemOrder.

Definition is_string (v : json) : bool :=
  match v with JStr _ => true | _ => false end.

Definition is_number (v : json) : bool :=
  match as_number v with Some _ => true | None => false end.

(** [sorted(grouped_results.items())].  No comparison is made on fewer than
    two items; otherwise every sort compares, directly or through others,
    each item with each, so it ends in [TypeError] as soon as the keys are
    not all strings or all numbers (the text of the error is abridged). *)
Definition sorted_items (g : groups) : res groups :=
  match g with
  | [] | [_] => Ok g
  | _ =>
      if forallb (fun kv => is_string (fst kv)) g
         || forallb (fun kv => is_number (fst kv)) g
      then Ok (ItemSort.sort g)
      else Raise (Exn TypeError "'<' not supported between keys of two kinds")
  end.

Section Generator.

Variable h : Host.

(** The body of the [try] for one file. *)
Definition load_file (filepath : path) (results : list json) : M (list json) :=
  text <- lift (fs_read h filepath) ;;
  data <- lift (json_loads h text) ;;
  batched <- lift (py_contains "results" data) ;;
  if batched : bool then
    batch <- lift (py_getitem data "results") ;;
    items <- lift (py_iter batch) ;;
    ret (results ++ items)%list
  else
    ret (results ++ [data])%list.

Definition load_results (self : LeaderboardGenerator) : M (list json) :=
  for_each (fs_glob h (results_dir self) "*.json")
    (fun results name =>
       let filepath := results_dir self // name in
       try_except (load_file filepath results)
         (fun e => Some (print (MsgWarnLoad filepath e) ;; ret results)))
    [].

End Generator.

End GenerateLeaderboard.

(** ** Binary floating point

    [int / int] and the float operations of CPython are correctly rounded:
    the result is the double nearest to the exact value, ties going to the
    even significand.  A double is written by its exact rational value. *)

(** The integer nearest to [y], ties to even. *)
Definition round_half_even (y : Q) : Z :=
  let f := Qfloor y in
  match Qcompare (y - inject_Z f) (1 # 2) with
  | Lt => f
  | Gt => (f + 1)%Z
  | Eq => if Z.even f then f else (f + 1)%Z
  end.

(** [floor (log2 x)] of a positive [x]. *)
Definition binade (x : Q) : Z :=
  let e := (Z.log2 (Qnum x) - Z.log2 (Zpos (Qden x)))%Z in
  if Qle_bool (2 ^ e) x then e else (e - 1)%Z.

(** The exponent of the last place of the doubles around a positive [x]:
    52 places below the leading bit, and -1074 in the subnormal range. *)
Definition exponent (x : Q) : Z := (Z.max (binade x) (-1022) - 52)%Z.

(** The double nearest to a positive [x]; [None] when it would be 2^1024
    or more. *)
Definition round_positive (x : Q) : option Q :=
  let k := exponent x in
  let m := round_half_even (x / 2 ^ k) in
  let v := inject_Z m * 2 ^ k in
  if Qle_bool (2 ^ 1024) v then None else Some (Qred v).

Definition round_double (x : Q) : option Q :=
  match Qnum x with
  | Z0 => Some 0
  | Zpos _ => round_positive x
  | Zneg _ => option_map Qopp (round_positive (- x))
  end.

(** A Python [float]: a finite double, or one of the values that are not
    numbers of [Q]. *)
Inductive float : Type :=
| Finite (q : Q)
| Infinity (negative : bool)
| NaN.

(** What [+] and [/] return. *)
Inductive numeric : Type :=
| Int (z : Z)
| Float (x : float).

(** The value a float operation returns for the exact result [x]: an
    overflow gives an infinity, not an exception. *)
Definition fl (x : Q) : float :=
  match round_double x with
  | Some d => Finite d
  | None => Infinity (Qnum x <? 0)%Z
  end.

(** [a / b] on two [int]. *)
Definition true_divide (a b : Z) : res Q :=
  if (b =? 0)%Z then Raise (Exn ZeroDivisionError "division by zero")
  else
    match round_double (inject_Z a / inject_Z b) with
    | Some d => Ok d
    | None =>
        Raise (Exn OverflowError "integer division result too large for a float")
    end.

(** [float(n)] of an [int]. *)
Definition int_to_float (n : Z) : res Q :=
  match round_double (inject_Z n) with
  | Some d => Ok d
  | None => Raise (Exn OverflowError "int too large to convert to float")
  end.

(** [x / n] with a [float] and an [int]. *)
Definition float_divide (x : float) (n : Z) : res float :=
  do d <- int_to_float n;
  if Qeq_bool d 0 then Raise (Exn ZeroDivisionError "float division by zero")
  else
    Ok (match x with
        | Finite q => fl (q / d)
        | Infinity negative => Infinity (xorb negative (Qnum d <? 0)%Z)
        | NaN => NaN
        end).

(** ** The two scripts on a host that can fail

    The modules [RunBenchmark] and [GenerateLeaderboard] run on a host whose
    probes and prints always succeed, on a parsed command line, and with
    exact arithmetic.  This module translates the same functions with what
    was left out there: [Path.exists], [Path.is_dir] and [Path.glob] can
    raise an [OSError], [print] can raise (an encoding error, a closed
    stream), [parse_args] can end the process, pathlib's [/] is what the
    library makes of its operands, and numbers are rounded to doubles. *)

Module Full.

Import RunBenchmark GenerateLeaderboard.

(** What [parser.parse_args()] does with a command line: it hands the
    arguments to [main], or it prints a usage message (or the help) and
    ends the process with a status of its own. *)
Inductive parsed : Type :=
| Parsed (args : Args)
| Exits (status : Z).

Record Env : Type := {
  host : Host;
  joinpath : path -> string -> path;          (* pathlib's p / name *)
  exists_error : path -> option exn;          (* the OSError Path.exists()
                                                 re-raises, if any *)
  is_dir_error : path -> option exn;          (* the same for Path.is_dir() *)
  glob_error : path -> string -> option exn;  (* the same for Path.glob() *)
  print_error : message -> option exn;        (* what print raises, if
                                                 anything *)
  parse_args : list string -> parsed;         (* argparse on sys.argv[1:] *)
  float_sum : Z -> list json -> res float     (* sum() from its first float
                                                 on, given the integer total
                                                 so far: the summation of
                                                 floats differs between
                                                 versions of CPython *)
}.

(** The dict [calculate_statistics] returns. *)
Record Statistics : Type := {
  count : nat;
  avg_score : numeric;
  min_score : json;
  max_score : json;
  pass_rate : numeric
}.

Definition zero_statistics : Statistics :=
  {| count := 0;
     avg_score := Int 0;
     min_score := JInt 0;
     max_score := JInt 0;
     pass_rate := Int 0 |}.

(** An entry of ["benchmarks"] in the JSON leaderboard. *)
Record Entry : Type := {
  statistics : Statistics;
  runs : list json
}.

(** The dict [generate_json_leaderboard] returns; the keys of its
    ["benchmarks"] are the keys of the groups. *)
Record Leaderboard : Type := {
  generated_at : json;
  overall_statistics : Statistics;
  benchmarks : list (json * Entry)
}.

(** [d[k] = v] on a dict with keys of any hashable kind. *)
Fixpoint entry_set (k : json) (v : Entry) (d : list (json * Entry))
  : list (json * Entry) :=
  match d with
  | [] => [(k, v)]
  | (k', v') :: d' =>
      if key_eqb k k' then (k', v) :: d' else (k', v') :: entry_set k v d'
  end.

Section OnHost.

Variable env : Env.

Local Notation "p </> name" := (joinpath env p name)
  (at level 40, left associativity).

Definition path_exists (p : path) : M bool :=
  lift (match exists_error env p with
        | Some e => Raise e
        | None => Ok (fs_exists (host env) p)
        end).

Definition path_is_dir (p : path) : M bool :=
  lift (match is_dir_error env p with
        | Some e => Raise e
        | None => Ok (fs_is_dir (host env) p)
        end).

Definition path_glob (p : path) (pattern : string) : M (list string) :=
  lift (match glob_error env p pattern with
        | Some e => Raise e
        | None => Ok (fs_glob (host env) p pattern)
        end).

Definition print (m : message) : M unit :=
  fun tr =>
    match print_error env m with
    | Some e => (Raise e, tr)
    | None => (Ok tt, (tr ++ [EvPrint m])%list)
    end.

(** *** run_benchmark.py *)

Definition run_benchmark (self : BenchmarkRunner) (benchmark_name : string) : M json :=
  let benchmark_path := benchmarks_dir self </> benchmark_name in
  let verify_script := benchmark_path </> "verification" </> "verify.sh" in
  found <- path_exists verify_script ;;
  if negb found then
    ret (error_result (host env) benchmark_name "verify.sh not found")
  else
    print (MsgRunning benchmark_name) ;;
    print (MsgPath benchmark_path) ;;
    try_except
      (result <- subprocess_run (host env) verify_script benchmark_path ;;
       output <- try_except
                   (lift (json_loads (host env) (stdout result)))
                   (fun e => match exn_cls e with
                             | JSONDecodeError =>
                                 Some (ret (invalid_json_result (host env)
                                              benchmark_name result))
                             | _ => None
                             end) ;;
       output <- lift (py_setitem output "exit_code" (JInt (returncode result))) ;;
       output <- lift (py_setitem output "execution_time_ms" JNull) ;;
       ret output)
      (fun e => match exn_cls e with
                | TimeoutExpired =>
                    Some (ret (error_result (host env) benchmark_name
                                 "Execution timeout (300s)"))
                | _ =>
                    Some (ret (error_result (host env) benchmark_name
                                 ("Execution failed: " ++ exn_msg e)))
                end).

Definition list_benchmarks (self : BenchmarkRunner) : M (list string) :=
  entries <- lift (fs_iterdir (host env) (benchmarks_dir self)) ;;
  benchmarks <- for_each entries
    (fun benchmarks name =>
       let path := benchmarks_dir self </> name in
       is_dir <- path_is_dir path ;;
       if is_dir : bool then
         found <- path_exists (path </> "verification" </> "verify.sh") ;;
         if found : bool then ret (benchmarks ++ [name])%list
         else ret benchmarks
       else ret benchmarks)
    [] ;;
  ret (sorted benchmarks).

Definition save_result (self : BenchmarkRunner) (result : json) : M path :=
  benchmark_name <- lift (py_get result "benchmark" (JStr "unknown")) ;;
  let filename :=
    fmt (host env) benchmark_name ++ "_" ++ utcnow_stamp (host env) ++ ".json" in
  let filepath := RunBenchmark.results_dir self </> filename in
  json_dump_to (host env) filepath result ;;
  ret filepath.

Definition run_all_benchmarks (self : BenchmarkRunner) : M Report :=
  benchmarks <- list_benchmarks self ;;
  let stamp := timestamp_now (host env) in
  collected <- for_each benchmarks
    (fun collected benchmark =>
       result <- run_benchmark self benchmark ;;
       passed <- lift (py_get result "passed" (JBool false)) ;;
       score <- lift (py_get result "final_score" (JInt 0)) ;;
       print (MsgStatus (truthy passed) score) ;;
       ret (collected ++ [result])%list)
    [] ;;
  ret {| run_timestamp := stamp;
         total_benchmarks := List.length benchmarks;
         results := collected |}.

(** [main] on the command line [argv].  Its value is the status the
    process ends with when no exception escapes: the status [parse_args]
    exits with, or the value [main] returns to [sys.exit]. *)
Definition main (argv : list string) : M Z :=
  match parse_args env argv with
  | Exits status => ret status
  | Parsed args =>
      let benchmarks_dir := project_root (host env) </> "benchmarks" in
      runner <- BenchmarkRunner_init (host env) benchmarks_dir
                  (arg_results_dir args) ;;
      if arg_list args then
        benchmarks <- list_benchmarks runner ;;
        print (MsgAvailable (List.length benchmarks)) ;;
        for_each benchmarks (fun _ benchmark => print (MsgItem benchmark)) tt ;;
        ret 0%Z
      else if arg_all args then
        report <- run_all_benchmarks runner ;;
        let filepath :=
          arg_results_dir args
            </> ("all_benchmarks_" ++ utcnow_stamp (host env) ++ ".json") in
        json_dump_to (host env) filepath (report_json report) ;;
        print (MsgSaved filepath) ;;
        passed <- lift (count_passed (results report)) ;;
        let total := total_benchmarks report in
        print (MsgSummary passed total) ;;
        ret (if Nat.eqb passed total then 0%Z else 1%Z)
      else
        match arg_benchmark args with
        | Some (String _ _ as name) =>
            result <- run_benchmark runner name ;;
            filepath <- save_result runner result ;;
            print (MsgSaved filepath) ;;
            print (MsgJson result) ;;
            passed <- lift (py_get result "passed" (JBool false)) ;;
            ret (if truthy passed then 0%Z else 1%Z)
        | _ =>
            print MsgHelp ;;
            ret 1%Z
        end
  end.

(** *** generate_leaderboard.py *)

Definition load_results (self : LeaderboardGenerator) : M (list json) :=
  names <- path_glob (results_dir self) "*.json" ;;
  for_each names
    (fun results name =>
       let filepath := results_dir self </> name in
       try_except (load_file (host env) filepath results)
         (fun e => Some (print (MsgWarnLoad filepath e) ;; ret results)))
    [].

(** [sum(scores)], from the start value 0: exact while the items are
    [int] (or [bool]), a float from the first [float] on. *)
Fixpoint py_sum (scores : list json) (acc : Z) : res numeric :=
  match scores with
  | [] => Ok (Int acc)
  | JInt z :: rest => py_sum rest (acc + z)
  | JBool b :: rest => py_sum rest (acc + (if b then 1 else 0))
  | JFloat _ :: _ => do x <- float_sum env acc scores; Ok (Float x)
  | v :: _ => Raise (not_a_number v)
  end.

(** [total / n] with the length [n] of a list. *)
Definition py_truediv (total : numeric) (n : nat) : res float :=
  match total with
  | Int z => do d <- true_divide z (Z.of_nat n); Ok (Finite d)
  | Float x => float_divide x (Z.of_nat n)
  end.

Definition calculate_statistics (results : list json) : res Statistics :=
  if is_nil results then Ok zero_statistics
  else
    do scores <- map_res (fun r => py_get r "final_score" (JInt 0)) results;
    do passed <- count_passed results;
    let n := List.length results in
    do total <- py_sum scores 0;
    do avg <- py_truediv total n;
    do lo <- py_min scores;
    do hi <- py_max scores;
    do rate <- true_divide (Z.of_nat passed) (Z.of_nat n);
    Ok {| count := n;
          avg_score := Float avg;
          min_score := lo;
          max_score := hi;
          pass_rate := Float (fl (rate * 100)) |}.

(** The loop of [generate_json_leaderboard]. *)
Fixpoint fill_benchmarks (items : groups) (benchmarks : list (json * Entry))
  : res (list (json * Entry)) :=
  match items with
  | [] => Ok benchmarks
  | (benchmark, results) :: rest =>
      do statistics <- calculate_statistics results;
      fill_benchmarks rest
        (entry_set benchmark
                   {| statistics := statistics; runs := results |}
                   benchmarks)
  end.

Definition generate_json_leaderboard (grouped_results : groups) : res Leaderboard :=
  let all_results := flat_map snd grouped_results in
  do overall <- calculate_statistics all_results;
  do items <- sorted_items grouped_results;
  do benchmarks <- fill_benchmarks items [];
  Ok {| generated_at := JStr (utcnow_iso (host env) ++ "Z");
        overall_statistics := overall;
        benchmarks := benchmarks |}.

End OnHost.

End Full.

(** ** A concrete host

    A small repository used to run the model: five benchmarks with a
    verification script (one well behaved, one failing, one printing no
    JSON, one printing a JSON array, one that hangs), a directory without
    a script, a stray file, and a results directory with four files. *)

Module Demo.

Definition dq : string := String (ascii_of_nat 34) EmptyString.

(** A JSON member [name: value] as it is written in a file. *)
Definition member (name value : string) : string :=
  dq ++ name ++ dq ++ ": " ++ value.

Definition quoted (s : string) : string := dq ++ s ++ dq.

Definition alpha_text : string :=
  "{" ++ member "benchmark" (quoted "alpha") ++ ", "
      ++ member "passed" "true" ++ ", "
      ++ member "final_score" "100" ++ "}".

Definition zeta_text : string :=
  "{" ++ member "benchmark" (quoted "zeta") ++ ", "
      ++ member "passed" "false" ++ ", "
      ++ member "final_score" "40" ++ ", "
      ++ member "exit_code" "7" ++ "}".

Definition batch_text : string :=
  "{" ++ member "results" ("[" ++ alpha_text ++ ", " ++ zeta_text ++ "]") ++ "}".

Definition alpha_json : json :=
  JObj [("benchmark", JStr "alpha"); ("passed", JBool true);
        ("final_score", JInt 100)].

Definition zeta_json : json :=
  JObj [("benchmark", JStr "zeta"); ("passed", JBool false);
        ("final_score", JInt 40); ("exit_code", JInt 7)].

Definition loads (s : string) : res json :=
  if String.eqb s alpha_text then Ok alpha_json
  else if String.eqb s zeta_text then Ok zeta_json
  else if String.eqb s batch_text then
    Ok (JObj [("results", JArr [alpha_json; zeta_json])])
  else if String.eqb s "[]" then Ok (JArr [])
  else if String.eqb s "5" then Ok (JInt 5)
  else Raise (Exn JSONDecodeError "Expecting value: line 1 column 1 (char 0)").

Definition one_of (names : list string) (p : path) : bool :=
  existsb (String.eqb p) names.

Definition run (script cwd : path) : res completed :=
  if String.eqb script "/repo/benchmarks/alpha/verification/verify.sh" then
    Ok (Completed alpha_text "" 0)
  else if String.eqb script "/repo/benchmarks/zeta/verification/verify.sh" then
    Ok (Completed zeta_text "lint failed" 1)
  else if String.eqb script "/repo/benchmarks/broken/verification/verify.sh" then
    Ok (Completed "oops" "Traceback" 2)
  else if String.eqb script "/repo/benchmarks/listy/verification/verify.sh" then
    Ok (Completed "[]" "" 0)
  else if String.eqb script "/repo/benchmarks/slow/verification/verify.sh" then
    Raise (Exn TimeoutExpired "Command timed out after 300 seconds")
  else Raise (Exn OSError "[Errno 2] No such file or directory").

Definition read (p : path) : res string :=
  if String.eqb p "/repo/results/a.json" then Ok alpha_text
  else if String.eqb p "/repo/results/all.json" then Ok batch_text
  else if String.eqb p "/repo/results/bad.json" then Ok "oops"
  else if String.eqb p "/repo/results/five.json" then Ok "5"
  else Raise (Exn OSError "[Errno 2] No such file or directory").

Definition host : Host := {|
  fs_exists := one_of ["/repo/benchmarks/alpha/verification/verify.sh";
                       "/repo/benchmarks/zeta/verification/verify.sh";
                       "/repo/benchmarks/broken/verification/verify.sh";
                       "/repo/benchmarks/listy/verification/verify.sh";
                       "/repo/benchmarks/slow/verification/verify.sh"];
  fs_is_dir := one_of ["/repo/benchmarks/alpha"; "/repo/benchmarks/zeta";
                       "/repo/benchmarks/broken"; "/repo/benchmarks/listy";
                       "/repo/benchmarks/slow"; "/repo/benchmarks/ghost"];
  fs_iterdir := fun p =>
    if String.eqb p "/repo/benchmarks" then
      Ok ["zeta"; "notes.txt"; "alpha"; "ghost"; "broken"; "slow"; "listy"]
    else Raise (Exn OSError "[Errno 2] No such file or directory");
  fs_glob := fun p pat =>
    if String.eqb p "/repo/results" && String.eqb pat "*.json" then
      ["a.json"; "bad.json"; "all.json"; "five.json"]
    else [];
  fs_read := read;
  fs_mkdir := fun _ => Ok tt;
  fs_write := fun _ _ => Ok tt;
  proc_run := run;
  json_loads := loads;
  py_repr := fun _ => "?";
  utcnow_iso := "2024-01-01T00:00:00";
  utcnow_stamp := "20240101_000000";
  project_root := "/repo"
|}.

Definition runner : RunBenchmark.BenchmarkRunner :=
  {| RunBenchmark.benchmarks_dir := "/repo/benchmarks";
     RunBenchmark.results_dir := "/repo/results" |}.

Definition generator : GenerateLeaderboard.LeaderboardGenerator :=
  {| GenerateLeaderboard.results_dir := "/repo/results" |}.


End Demo.

Import RunBenchmark GenerateLeaderboard.

(** ** The vocabulary of the properties *)

(** *** One run *)

(** The events of a run that reaches the subprocess. *)
Definition dispatched (self : BenchmarkRunner) (name : string) : trace :=
  [EvPrint (MsgRunning name);
   EvPrint (MsgPath (benchmark_path_of self name));
   EvSpawn (verify_script_of self name) (benchmark_path_of self name)].

(** The text an outer [except] clause of [run_benchmark] stores under
    ["error"]. *)
Definition exception_text (e : exn) : string :=
  match exn_cls e with
  | TimeoutExpired => "Execution timeout (300s)"
  | _ => "Execution failed: " ++ exn_msg e
  end.

(** The two outer [except] clauses of [run_benchmark]. *)
Definition recover (h : Host) (name : string) (e : exn) : json :=
  match exn_cls e with
  | TimeoutExpired => error_result h name "Execution timeout (300s)"
  | _ => error_result h name ("Execution failed: " ++ exn_msg e)
  end.

(** The two assignments after the parse. *)
Definition add_metadata (h : Host) (name : string) (c : completed)
           (output : json) : json :=
  match py_setitem output "exit_code" (JInt (returncode c)) with
  | Raise e => recover h name e
  | Ok output' =>
      match py_setitem output' "execution_time_ms" JNull with
      | Raise e => recover h name e
      | Ok output'' => output''
      end
  end.

(** What [run_benchmark] returns once the subprocess has answered: the
    result of the run, free of the trace. *)
Definition settle (h : Host) (name : string) (answer : res completed) : json :=
  match answer with
  | Raise e => recover h name e
  | Ok c =>
      match json_loads h (stdout c) with
      | Ok v => add_metadata h name c v
      | Raise e =>
          match exn_cls e with
          | JSONDecodeError =>
              add_metadata h name c (invalid_json_result h name c)
          | _ => recover h name e
          end
      end
  end.

(** The result and the effects of one run, whatever was done before. *)
Definition result_of (h : Host) (self : BenchmarkRunner) (name : string) : json :=
  if fs_exists h (verify_script_of self name) then
    settle h name
           (proc_run h (verify_script_of self name) (benchmark_path_of self name))
  else error_result h name "verify.sh not found".

Definition effects_of (h : Host) (self : BenchmarkRunner) (name : string) : trace :=
  if fs_exists h (verify_script_of self name) then dispatched self name else [].

(** Whether the run of [name] passed: its result's ["passed"] is truthy. *)
Definition run_passed (h : Host) (self : BenchmarkRunner) (name : string) : bool :=
  match fst (run_benchmark h self name []) with
  | Ok r =>
      match py_get r "passed" (JBool false) with
      | Ok p => truthy p
      | Raise _ => false
      end
  | Raise _ => false
  end.

(** *** The listing *)

(** The order of [sorted] on strings: lexicographic, character by
    character. *)
Definition str_le (a b : string) : Prop := String.leb a b = true.

(** *** The command line *)

(** The runner [main] builds. *)
Definition main_runner (h : Host) (args : Args) : BenchmarkRunner :=
  {| RunBenchmark.benchmarks_dir := project_root h // "benchmarks";
     RunBenchmark.results_dir := arg_results_dir args |}.

(** A sweep of the demo repository. *)
Definition run_all : Args :=
  {| arg_benchmark := None; arg_all := true; arg_list := false;
     arg_results_dir := "/repo/results" |}.

(** *** The loader *)

(** The path the glob yields for the file [name]. *)
Definition file_path (self : LeaderboardGenerator) (name : string) : path :=
  results_dir self // name.

(** What the file [name] adds to the results: the outcome of the [try]
    body started on an empty list, nothing when it raises. *)
Definition contribution (h : Host) (self : LeaderboardGenerator)
           (name : string) : list json :=
  match fst (load_file h (file_path self name) [] []) with
  | Ok items => items
  | Raise _ => []
  end.

(** The warning printed for the file [name], if its [try] body raises. *)
Definition warning (h : Host) (self : LeaderboardGenerator)
           (name : string) : trace :=
  match fst (load_file h (file_path self name) [] []) with
  | Ok _ => []
  | Raise e => [EvPrint (MsgWarnLoad (file_path self name) e)]
  end.

(** *** Grouping *)

(** The name a result is filed under: its ["benchmark"], or "unknown". *)
Definition benchmark_of (r : json) : string :=
  match r with
  | JObj d =>
      match dict_get "benchmark" d with
      | Some (JStr s) => s
      | _ => "unknown"
      end
  | _ => "unknown"
  end.

(** A result in the sense of the data model: a dict whose ["benchmark"],
    when it has one, is a string. *)
Definition named (r : json) : Prop :=
  exists d, r = JObj d /\
            (dict_get "benchmark" d = None \/
             exists s, dict_get "benchmark" d = Some (JStr s)).

Definition in_group (name : string) (r : json) : bool :=
  String.eqb (benchmark_of r) name.

(** The sublist of [results] filed under [name], in the order of [results]. *)
Definition group_of (name : string) (results : list json) : list json :=
  filter (in_group name) results.

(** What the loop keeps true of the groups built from the results seen. *)
Definition grouped_from (seen : list json) (g : groups) : Prop :=
  NoDup (map fst g) /\
  (forall k, In k (map fst g) ->
     exists r, In r seen /\ k = JStr (benchmark_of r)) /\
  (forall name,
     group_lookup (JStr name) g =
       if is_nil (group_of name seen) then None
       else Some (group_of name seen)).

(** Three runs, the second without a name. *)
Definition three_runs : list json :=
  [JObj [("benchmark", JStr "b"); ("final_score", JInt 1)];
   JObj [("final_score", JInt 2)];
   JObj [("benchmark", JStr "b"); ("final_score", JInt 3)]].

(** *** Statistics *)

(** The score of a result as the code reads it: ["final_score"], or 0. *)
Definition final_score_of (r : json) : json :=
  match r with
  | JObj d =>
      match dict_get "final_score" d with
      | Some v => v
      | None => JInt 0
      end
  | _ => JInt 0
  end.

(** The value of a number, 0 for anything else. *)
Definition number (v : json) : Q :=
  match as_number v with
  | Some q => q
  | None => 0
  end.

Definition score_of (r : json) : Q := number (final_score_of r).


(** A result in the sense of the data model: a dict whose ["final_score"],
    when it has one, is a number. *)
Definition scored (r : json) : Prop :=
  (exists d, r = JObj d) /\ (exists q, as_number (final_score_of r) = Some q).

Definition sum_scores (results : list json) : Q :=
  fold_right Qplus 0 (map score_of results).



(** *** Effects of the runner *)

(** The subprocesses a trace has spawned: script and working directory, in
    order. *)
Fixpoint spawns (tr : trace) : list (path * path) :=
  match tr with
  | [] => []
  | EvSpawn script cwd :: tr' => (script, cwd) :: spawns tr'
  | _ :: tr' => spawns tr'
  end.

(** The files a trace has written, in order. *)
Fixpoint writes (tr : trace) : list (path * json) :=
  match tr with
  | [] => []
  | EvWrite p v :: tr' => (p, v) :: writes tr'
  | _ :: tr' => writes tr'
  end.

(** The benchmark [name] printed an object of its own: the script exists,
    ran to completion, and its stdout parsed to a JSON object. *)
Definition own_object (h : Host) (self : BenchmarkRunner) (name : string) : Prop :=
  fs_exists h (verify_script_of self name) = true /\
  exists c d,
    proc_run h (verify_script_of self name) (benchmark_path_of self name) = Ok c /\
    json_loads h (stdout c) = Ok (JObj d).

(** The label [save_result] puts in the file name. *)
Definition label_of (h : Host) (d : list (string * json)) : string :=
  match dict_get "benchmark" d with
  | Some v => fmt h v
  | None => "unknown"
  end.

(** The line a sweep prints for a result. *)
Definition status_of (r : json) : event :=
  match r with
  | JObj d =>
      EvPrint (MsgStatus
                 (truthy (match dict_get "passed" d with
                          | Some p => p
                          | None => JBool false
                          end))
                 (match dict_get "final_score" d with
                  | Some v => v
                  | None => JInt 0
                  end))
  | _ => EvPrint (MsgStatus false (JInt 0))
  end.

(** Everything a sweep over [names] does, in order. *)
Definition sweep_effects (h : Host) (self : BenchmarkRunner)
           (names : list string) : trace :=
  flat_map (fun n => effects_of h self n ++ [status_of (result_of h self n)])%list
           names.

(** The benchmarks a sweep finds. *)
Definition discovered (h : Host) (self : BenchmarkRunner)
           (entries : list string) : list string :=
  sorted (filter (qualifies h self) entries).

(** The demo repository seen from a checkout whose benchmarks directory is
    missing. *)
Definition lost_host : Host :=
  {| fs_exists := fs_exists Demo.host;
     fs_is_dir := fs_is_dir Demo.host;
     fs_iterdir := fs_iterdir Demo.host;
     fs_glob := fs_glob Demo.host;
     fs_read := fs_read Demo.host;
     fs_mkdir := fs_mkdir Demo.host;
     fs_write := fs_write Demo.host;
     proc_run := proc_run Demo.host;
     json_loads := json_loads Demo.host;
     py_repr := py_repr Demo.host;
     utcnow_iso := utcnow_iso Demo.host;
     utcnow_stamp := utcnow_stamp Demo.host;
     project_root := "/nowhere" |}.

(** The listing of the demo repository, and one run in it. *)
Definition list_only : Args :=
  {| arg_benchmark := Some "alpha"; arg_all := true; arg_list := true;
     arg_results_dir := "/repo/results" |}.

Definition run_zeta : Args :=
  {| arg_benchmark := Some "zeta"; arg_all := false; arg_list := false;
     arg_results_dir := "/repo/results" |}.

Definition demo_entries : list string :=
  ["zeta"; "notes.txt"; "alpha"; "ghost"; "broken"; "slow"; "listy"].

(** The demo repository after a sweep and a run of [slow] were saved. *)
Definition sweep_text : string :=
  "{" ++ Demo.member "run_timestamp" (Demo.quoted "2024-01-01T00:00:00Z") ++ ", "
      ++ Demo.member "total_benchmarks" "1" ++ ", "
      ++ Demo.member "results" ("[" ++ Demo.alpha_text ++ "]") ++ "}".

Definition slow_text : string :=
  "{" ++ Demo.member "benchmark" (Demo.quoted "slow") ++ ", "
      ++ Demo.member "error" (Demo.quoted "Execution timeout (300s)") ++ ", "
      ++ Demo.member "timestamp" (Demo.quoted "2024-01-01T00:00:00Z") ++ "}".

Definition sweep_report : Report :=
  {| run_timestamp := JStr "2024-01-01T00:00:00Z";
     total_benchmarks := 1;
     results := [Demo.alpha_json] |}.

Definition archive_host : Host :=
  {| fs_exists := fs_exists Demo.host;
     fs_is_dir := fs_is_dir Demo.host;
     fs_iterdir := fs_iterdir Demo.host;
     fs_glob := fun _ _ => ["sweep.json"; "slow.json"];
     fs_read := fun p =>
       if String.eqb p "/repo/results/sweep.json" then Ok sweep_text
       else if String.eqb p "/repo/results/slow.json" then Ok slow_text
       else Raise (Exn OSError "[Errno 2] No such file or directory");
     fs_mkdir := fs_mkdir Demo.host;
     fs_write := fs_write Demo.host;
     proc_run := proc_run Demo.host;
     json_loads := fun s =>
       if String.eqb s sweep_text then Ok (report_json sweep_report)
       else if String.eqb s slow_text then
         Ok (JObj [("benchmark", JStr "slow");
                   ("error", JStr "Execution timeout (300s)");
                   ("timestamp", JStr "2024-01-01T00:00:00Z")])
       else json_loads Demo.host s;
     py_repr := py_repr Demo.host;
     utcnow_iso := utcnow_iso Demo.host;
     utcnow_stamp := utcnow_stamp Demo.host;
     project_root := project_root Demo.host |}.

(** A result [group_by_benchmark] can file: a dict whose ["benchmark"], when
    it has one, can be a dict key. *)
Definition groupable (r : json) : Prop :=
  exists d, r = JObj d /\
            hashable (match dict_get "benchmark" d with
                      | Some k => k
                      | None => JStr "unknown"
                      end) = true.

(** All the results of all the groups, group after group. *)
Definition all_runs (g : groups) : list json := flat_map snd g.

(** *** The JSON leaderboard *)

(** The name in a string key. *)
Definition key_name (k : json) : string :=
  match k with
  | JStr s => s
  | _ => ""
  end.

Definition string_keyed (g : groups) : Prop :=
  Forall (fun kv => exists s, fst kv = JStr s) g.

(** The entry of ["benchmarks"] made for the item [kv] of the groups: under
    the same key, the statistics of the runs and the runs themselves. *)
Definition full_entry_for (env : Full.Env) (kv : json * list json)
           (e : json * Full.Entry) : Prop :=
  fst e = fst kv /\
  Full.calculate_statistics env (snd kv) = Ok (Full.statistics (snd e)) /\
  Full.runs (snd e) = snd kv.

(** Two results of one benchmark and one whose ["benchmark"] is null. *)
Definition odd_runs : list json :=
  [JObj [("benchmark", JStr "a"); ("final_score", JInt 10)];
   JObj [("benchmark", JNull); ("final_score", JInt 20)];
   JObj [("benchmark", JStr "a"); ("final_score", JInt 30)]].

(** Groups of the demo: two runs of [b], one of [a]. *)
Definition demo_groups : groups :=
  [(JStr "b", [JObj [("benchmark", JStr "b"); ("final_score", JInt 40)];
               JObj [("benchmark", JStr "b"); ("final_score", JInt 60)]]);
   (JStr "a", [JObj [("benchmark", JStr "a"); ("final_score", JInt 100);
                     ("passed", JBool true)]])].

(** *** The host that can fail *)

(** The paths [Full.run_benchmark] builds. *)
Definition full_cwd (env : Full.Env) (self : BenchmarkRunner) (name : string) : path :=
  Full.joinpath env (benchmarks_dir self) name.

Definition full_script (env : Full.Env) (self : BenchmarkRunner) (name : string) : path :=
  Full.joinpath env (Full.joinpath env (full_cwd env self name) "verification")
                "verify.sh".

(** The events of a run that reaches the subprocess. *)
Definition full_dispatched (env : Full.Env) (self : BenchmarkRunner)
           (name : string) : trace :=
  [EvPrint (MsgRunning name);
   EvPrint (MsgPath (full_cwd env self name));
   EvSpawn (full_script env self name) (full_cwd env self name)].


(** [result] is what a run of [name] returned. *)
Definition ran (env : Full.Env) (self : BenchmarkRunner) (name : string)
           (result : json) : Prop :=
  exists tr tr', Full.run_benchmark env self name tr = (Ok result, tr').

(** A command line of the demo: the arguments [parse_args] makes of it. *)
Definition demo_parse (argv : list string) : Full.parsed :=
  let args name all list :=
    Full.Parsed {| arg_benchmark := name; arg_all := all; arg_list := list;
                   arg_results_dir := "/repo/results" |} in
  match argv with
  | [] => args None false false
  | ["--all"] => args None true false
  | ["--list"] => args None false true
  | ["--help"] => Full.Exits 0
  | [name] =>
      if String.prefix "-" name then Full.Exits 2 else args (Some name) false false
  | _ => Full.Exits 2
  end.

(** The length of the longest component of a path. *)
Fixpoint longest_component (p : string) (current best : nat) : nat :=
  match p with
  | EmptyString => Nat.max current best
  | String c p' =>
      if Ascii.eqb c "/" then longest_component p' 0 (Nat.max current best)
      else longest_component p' (S current) best
  end.

(** What [stat] answers on a file system whose names hold 255 bytes. *)
Definition name_too_long (p : path) : option exn :=
  if Nat.ltb 255 (longest_component p 0 0)
  then Some (Exn OSError "[Errno 36] File name too long")
  else None.

(** Summation of floats one rounding after the other, as CPython did up to
    3.11. *)
Definition float_add (x : float) (q : Q) : float :=
  match x with
  | Finite a => fl (a + q)
  | _ => x
  end.

Fixpoint sequential_sum (x : float) (scores : list json) : res float :=
  match scores with
  | [] => Ok x
  | JFloat q :: rest => sequential_sum (float_add x q) rest
  | JInt z :: rest =>
      do d <- int_to_float z; sequential_sum (float_add x d) rest
  | JBool b :: rest => sequential_sum (float_add x (if b then 1 else 0)) rest
  | v :: _ => Raise (not_a_number v)
  end.

(** The demo repository with every probe answering and every print
    succeeding. *)
Definition demo_env : Full.Env :=
  {| Full.host := Demo.host;
     Full.joinpath := path_join;
     Full.exists_error := name_too_long;
     Full.is_dir_error := name_too_long;
     Full.glob_error := fun _ _ => None;
     Full.print_error := fun _ => None;
     Full.parse_args := demo_parse;
     Full.float_sum := fun total scores =>
       do d <- int_to_float total; sequential_sum (Finite d) scores |}.

Fixpoint replicate (n : nat) (c : ascii) : string :=
  match n with
  | O => EmptyString
  | S n' => String c (replicate n' c)
  end.

(** A benchmark name of 300 characters. *)
Definition long_name : string := replicate 300 "a".


(** The demo repository with a standard output that encodes ASCII only:
    the status line of a sweep, which holds a check mark, cannot be
    printed. *)
Definition ascii_env : Full.Env :=
  {| Full.host := Demo.host;
     Full.joinpath := Full.joinpath demo_env;
     Full.exists_error := Full.exists_error demo_env;
     Full.is_dir_error := Full.is_dir_error demo_env;
     Full.glob_error := Full.glob_error demo_env;
     Full.print_error := fun m =>
       match m with
       | MsgStatus _ _ =>
           Some (Exn ValueError "'ascii' codec can't encode character")
       | _ => None
       end;
     Full.parse_args := Full.parse_args demo_env;
     Full.float_sum := Full.float_sum demo_env |}.

(** The demo repository with a standard output that was closed. *)
Definition closed_env : Full.Env :=
  {| Full.host := Demo.host;
     Full.joinpath := Full.joinpath demo_env;
     Full.exists_error := Full.exists_error demo_env;
     Full.is_dir_error := Full.is_dir_error demo_env;
     Full.glob_error := Full.glob_error demo_env;
     Full.print_error := fun _ =>
       Some (Exn ValueError "I/O operation on closed file.");
     Full.parse_args := Full.parse_args demo_env;
     Full.float_sum := Full.float_sum demo_env |}.

(** The path [Full.load_results] opens for the file [name]. *)
Definition full_file (env : Full.Env) (self : LeaderboardGenerator)
           (name : string) : path :=
  Full.joinpath env (results_dir self) name.

(** The outcome of the [try] body for the file [name], started on an empty
    list: what the file adds to the results, or what was raised. *)
Definition loaded (env : Full.Env) (self : LeaderboardGenerator)
           (name : string) : res (list json) :=
  fst (load_file (Full.host env) (full_file env self name) [] []).

Definition full_contribution (env : Full.Env) (self : LeaderboardGenerator)
           (name : string) : list json :=
  match loaded env self name with
  | Ok items => items
  | Raise _ => []
  end.

Definition full_warning (env : Full.Env) (self : LeaderboardGenerator)
           (name : string) : trace :=
  match loaded env self name with
  | Ok _ => []
  | Raise e => [EvPrint (MsgWarnLoad (full_file env self name) e)]
  end.

(** Every warning that is due for one of [names] can be printed. *)
Definition warnings_print (env : Full.Env) (self : LeaderboardGenerator)
           (names : list string) : Prop :=
  forall name e,
    In name names -> loaded env self name = Raise e ->
    Full.print_error env (MsgWarnLoad (full_file env self name) e) = None.

(** The keys of a dict, as iterating over it gives them. *)
Definition keys (d : list (string * json)) : list json :=
  map (fun kv => JStr (fst kv)) d.

(** *** Doubles *)




(** *** Statistics of integer scores *)

(** The integer a score stands for, for an [int] or a [bool]. *)
Definition as_int (v : json) : option Z :=
  match v with
  | JInt z => Some z
  | JBool b => Some (if b then 1 else 0)%Z
  | _ => None
  end.

(** A dict whose ["final_score"], when it has one, is an integer. *)
Definition int_scored (r : json) : Prop :=
  (exists d, r = JObj d) /\ (exists z, as_int (final_score_of r) = Some z).





(** * Properties *)

(** ** Dictionaries *)

Lemma dict_get_set_same (k : string) (v : json) (d : list (string * json)) :
  dict_get k (dict_set k v d) = Some v.
Proof.
  induction d as [| [k' v'] d IH]; simpl.
  - now rewrite String.eqb_refl.
  - destruct (String.eqb_spec k k') as [-> | Hne]; simpl.
    + now rewrite String.eqb_refl.
    + now destruct (String.eqb_spec k k').
Qed.

Lemma dict_get_set_other (k k' : string) (v : json) (d : list (string * json)) :
  k <> k' -> dict_get k' (dict_set k v d) = dict_get k' d.
Proof.
  intros Hne.
  induction d as [| [k0 v0] d IH]; simpl.
  - destruct (String.eqb_spec k' k); congruence.
  - destruct (String.eqb_spec k k0) as [-> | Hk]; simpl.
    + destruct (String.eqb_spec k' k0); congruence.
    + destruct (String.eqb_spec k' k0); congruence.
Qed.

Lemma py_setitem_dict (v : json) (k : string) (x r : json) :
  py_setitem v k x = Ok r ->
  exists d, v = JObj d /\ r = JObj (dict_set k x d).
Proof.
  destruct v as [| b | z | q | s | xs | d]; simpl; intros Hset;
    try discriminate.
  injection Hset as <-. now eexists.
Qed.

Lemma py_setitem_not_dict (v : json) (k : string) (x : json) :
  (forall d, v <> JObj d) ->
  exists msg, py_setitem v k x = Raise (Exn TypeError msg).
Proof.
  intros Hv. destruct v as [| b | z | q | s | xs | d]; simpl;
    try (now eexists).
  now destruct (Hv d).
Qed.

(** ** run_benchmark *)

Section RunnerFacts.

Variable h : Host.
Variable self : BenchmarkRunner.

Local Abbreviation script := (verify_script_of self).
Local Abbreviation cwd := (benchmark_path_of self).

Lemma run_benchmark_missing (name : string) (tr : trace) :
  fs_exists h (script name) = false ->
  run_benchmark h self name tr =
    (Ok (error_result h name "verify.sh not found"), tr).
Proof.
  intros He. unfold run_benchmark. fold (benchmark_path_of self name).
  fold (verify_script_of self name). now rewrite He.
Qed.

Lemma run_benchmark_dispatch (name : string) (tr : trace) :
  fs_exists h (script name) = true ->
  run_benchmark h self name tr =
    (Ok (settle h name (proc_run h (script name) (cwd name))),
     (tr ++ dispatched self name)%list).
Proof.
  intros He. unfold run_benchmark. fold (benchmark_path_of self name).
  fold (verify_script_of self name). rewrite He.
  unfold try_except, bind, print, emit, subprocess_run, lift, ret, settle,
    add_metadata, recover, dispatched, bind, emit, lift.
  cbn [negb]. cbv beta iota. rewrite <- !app_assoc. cbn [app].
  destruct (proc_run h (script name) (cwd name)) as [c | e].
  - destruct (json_loads h (stdout c)) as [v | e].
    + destruct (py_setitem v "exit_code" _) as [v' | e];
        [| now destruct (exn_cls e)].
      destruct (py_setitem v' "execution_time_ms" _) as [v'' | e];
        [reflexivity | now destruct (exn_cls e)].
    + destruct (exn_cls e) eqn:Hc; try reflexivity; now rewrite Hc.
  - now destruct (exn_cls e).
Qed.

Lemma recover_error_result (name : string) (e : exn) :
  recover h name e = error_result h name (exception_text e).
Proof. unfold recover, exception_text. now destruct (exn_cls e). Qed.

Lemma add_metadata_dict (name : string) (c : completed) (d : list (string * json)) :
  add_metadata h name c (JObj d) =
    JObj (dict_set "execution_time_ms" JNull
            (dict_set "exit_code" (JInt (returncode c)) d)).
Proof. reflexivity. Qed.

Lemma add_metadata_not_dict (name : string) (c : completed) (v : json) :
  (forall d, v <> JObj d) ->
  exists msg,
    add_metadata h name c v = error_result h name ("Execution failed: " ++ msg).
Proof.
  intros Hv. unfold add_metadata.
  destruct (py_setitem_not_dict v "exit_code" (JInt (returncode c)) Hv)
    as [msg ->].
  now exists msg.
Qed.

Lemma settle_is_dict (name : string) (answer : res completed) :
  exists d, settle h name answer = JObj d.
Proof.
  assert (Hrec : forall e, exists d, recover h name e = JObj d).
  { intros e. rewrite recover_error_result. now eexists. }
  assert (Hadd : forall c v, exists d, add_metadata h name c v = JObj d).
  { intros c v. unfold add_metadata.
    destruct (py_setitem v "exit_code" _) as [v' | e] eqn:Hset;
      [| apply Hrec].
    apply py_setitem_dict in Hset as (d & -> & ->). simpl. now eexists. }
  destruct answer as [c | e]; simpl; [| apply Hrec].
  destruct (json_loads h (stdout c)) as [v | e]; [apply Hadd |].
  destruct (exn_cls e); first [apply Hrec | apply Hadd].
Qed.

(** C4. When the benchmark directory has no [verification/verify.sh],
    [run_benchmark] returns at once the result whose ["error"] is the
    literal "verify.sh not found"; the trace of effects is left as it was,
    so nothing is printed and no subprocess is spawned. *)
Theorem run_benchmark_script_missing (name : string) (tr : trace) :
  fs_exists h (script name) = false ->
  exists d,
    run_benchmark h self name tr = (Ok (JObj d), tr) /\
    dict_get "benchmark" d = Some (JStr name) /\
    dict_get "error" d = Some (JStr "verify.sh not found").
Proof.
  intros He. rewrite (run_benchmark_missing name tr He).
  eexists. split; [reflexivity |]. split; reflexivity.
Qed.

(** C2, amended. When the script ran to completion and its stdout parses,
    the parsed value is the result only if it is a JSON object: the result
    is then that object with ["exit_code"] set to the return status (an
    ["exit_code"] the script printed is overwritten) and
    ["execution_time_ms"] set to [None], every other key as parsed.  A
    parsed value of any other kind is not returned: the result is the
    error result of the catch-all clause. *)
Theorem run_benchmark_parsed (name : string) (tr : trace) (c : completed) (v : json) :
  fs_exists h (script name) = true ->
  proc_run h (script name) (cwd name) = Ok c ->
  json_loads h (stdout c) = Ok v ->
  exists r tr',
    run_benchmark h self name tr = (Ok r, tr') /\
    match v with
    | JObj d =>
        exists d',
          r = JObj d' /\
          dict_get "exit_code" d' = Some (JInt (returncode c)) /\
          dict_get "execution_time_ms" d' = Some JNull /\
          (forall k, k <> "exit_code" -> k <> "execution_time_ms" ->
                     dict_get k d' = dict_get k d)
    | _ =>
        exists msg, r = error_result h name ("Execution failed: " ++ msg)
    end.
Proof.
  intros He Hrun Hload.
  rewrite (run_benchmark_dispatch name tr He), Hrun.
  do 2 eexists. split; [reflexivity |].
  cbn [settle]. rewrite Hload.
  destruct v as [| b | z | q | s | xs | d];
    try (apply add_metadata_not_dict; intros d0; discriminate).
  rewrite add_metadata_dict. eexists. split; [reflexivity |].
  split; [| split].
  - rewrite dict_get_set_other by discriminate. apply dict_get_set_same.
  - apply dict_get_set_same.
  - intros k Hk1 Hk2.
    rewrite dict_get_set_other by congruence.
    now rewrite dict_get_set_other by congruence.
Qed.

(** C1, amended. The result carries ["exit_code"], equal to the return
    status of the subprocess, when the script ran to completion and its
    stdout either parsed to a JSON object or was not JSON at all.  The
    results of the other paths -- script missing, timeout or any other
    exception of the call, any other exception of the parse, a parsed
    value that is not an object -- have no ["exit_code"] key. *)
Theorem run_benchmark_exit_code (name : string) (tr : trace) :
  exists d tr',
    run_benchmark h self name tr = (Ok (JObj d), tr') /\
    (fs_exists h (script name) = false -> dict_get "exit_code" d = None) /\
    (fs_exists h (script name) = true ->
       (forall e, proc_run h (script name) (cwd name) = Raise e ->
          dict_get "exit_code" d = None) /\
       (forall c, proc_run h (script name) (cwd name) = Ok c ->
          (forall d0, json_loads h (stdout c) = Ok (JObj d0) ->
             dict_get "exit_code" d = Some (JInt (returncode c))) /\
          (forall e, json_loads h (stdout c) = Raise e ->
             dict_get "exit_code" d =
               match exn_cls e with
               | JSONDecodeError => Some (JInt (returncode c))
               | _ => None
               end) /\
          (forall v, json_loads h (stdout c) = Ok v ->
             (forall d0, v <> JObj d0) ->
             dict_get "exit_code" d = None))).
Proof.
  destruct (fs_exists h (script name)) eqn:He.
  - destruct (settle_is_dict name (proc_run h (script name) (cwd name)))
      as [d Hd].
    exists d, (tr ++ dispatched self name)%list.
    rewrite (run_benchmark_dispatch name tr He), Hd.
    split; [reflexivity |]. split; [discriminate |]. intros _. split.
    + intros e Hrun. rewrite Hrun in Hd. cbn [settle] in Hd.
      rewrite recover_error_result in Hd. now injection Hd as <-.
    + intros c Hrun. rewrite Hrun in Hd. cbn [settle] in Hd. repeat split.
      * intros d0 Hload. rewrite Hload, add_metadata_dict in Hd.
        injection Hd as <-.
        rewrite dict_get_set_other by discriminate. apply dict_get_set_same.
      * intros e Hload. rewrite Hload in Hd.
        destruct (exn_cls e) eqn:Hc;
          try (rewrite recover_error_result in Hd; now injection Hd as <-).
        unfold invalid_json_result in Hd. rewrite add_metadata_dict in Hd.
      now injection Hd as <-.
      * intros v Hload Hv. rewrite Hload in Hd.
        destruct (add_metadata_not_dict name c v Hv) as [msg Hmsg].
        rewrite Hmsg in Hd. now injection Hd as <-.
  - exists [("benchmark", JStr name); ("error", JStr "verify.sh not found");
            ("timestamp", timestamp_now h)], tr.
    rewrite (run_benchmark_missing name tr He).
    split; [reflexivity |]. split; [reflexivity | discriminate].
Qed.

End RunnerFacts.

(** Concrete runs of the theorems above. *)

Lemma run_benchmark_script_missing_witness :
  fs_exists Demo.host (verify_script_of Demo.runner "ghost") = false /\
  exists d,
    run_benchmark Demo.host Demo.runner "ghost" [] = (Ok (JObj d), []) /\
    dict_get "benchmark" d = Some (JStr "ghost") /\
    dict_get "error" d = Some (JStr "verify.sh not found").
Proof.
  split; [reflexivity |].
  apply (run_benchmark_script_missing Demo.host Demo.runner "ghost" []).
  reflexivity.
Defined.

Lemma run_benchmark_parsed_witness :
  exists r tr',
    run_benchmark Demo.host Demo.runner "zeta" [] = (Ok r, tr') /\
    exists d',
      r = JObj d' /\
      dict_get "exit_code" d' = Some (JInt 1) /\
      dict_get "execution_time_ms" d' = Some JNull /\
      (forall k, k <> "exit_code" -> k <> "execution_time_ms" ->
                 dict_get k d' =
                 dict_get k [("benchmark", JStr "zeta"); ("passed", JBool false);
                             ("final_score", JInt 40); ("exit_code", JInt 7)]).
Proof.
  exact (run_benchmark_parsed Demo.host Demo.runner "zeta" []
           (Completed Demo.zeta_text "lint failed" 1) Demo.zeta_json
           eq_refl eq_refl eq_refl).
Defined.

(** C2 as stated fails on a script that prints the JSON array [[]]: the
    text parses, yet the result is not the parsed array but an error
    result. *)
Lemma run_benchmark_array_not_returned :
  proc_run Demo.host (verify_script_of Demo.runner "listy")
           (benchmark_path_of Demo.runner "listy") = Ok (Completed "[]" "" 0) /\
  json_loads Demo.host "[]" = Ok (JArr []) /\
  fst (run_benchmark Demo.host Demo.runner "listy" []) =
    Ok (JObj [("benchmark", JStr "listy");
              ("error", JStr "Execution failed: list indices must be integers or slices, not str");
              ("timestamp", JStr "2024-01-01T00:00:00Z")]).
Proof. repeat split. Qed.

(** C1 as stated fails on the timeout path and on the missing-script path:
    neither result has an ["exit_code"] key, so the field is not there to
    hold [None]. *)
Lemma run_benchmark_no_exit_code :
  (exists d tr',
     proc_run Demo.host (verify_script_of Demo.runner "slow")
              (benchmark_path_of Demo.runner "slow")
       = Raise (Exn TimeoutExpired "Command timed out after 300 seconds") /\
     run_benchmark Demo.host Demo.runner "slow" [] = (Ok (JObj d), tr') /\
     dict_get "exit_code" d = None) /\
  (exists d tr',
     fs_exists Demo.host (verify_script_of Demo.runner "ghost") = false /\
     run_benchmark Demo.host Demo.runner "ghost" [] = (Ok (JObj d), tr') /\
     dict_get "exit_code" d = None).
Proof. split; do 2 eexists; repeat split. Qed.

Lemma run_benchmark_exit_code_witness :
  exists d tr',
    run_benchmark Demo.host Demo.runner "broken" [] = (Ok (JObj d), tr') /\
    dict_get "exit_code" d = Some (JInt 2).
Proof.
  destruct (run_benchmark_exit_code Demo.host Demo.runner "broken" [])
    as (d & tr' & Hrun & _ & Hdone).
  exists d, tr'. split; [exact Hrun |].
  destruct (Hdone eq_refl) as [_ Hc].
  destruct (Hc (Completed "oops" "Traceback" 2) eq_refl) as (_ & Hbad & _).
  exact (Hbad (Exn JSONDecodeError "Expecting value: line 1 column 1 (char 0)")
              eq_refl).
Defined.

(** ** list_benchmarks *)

Lemma ascii_compare_refl (a : ascii) : Ascii.compare a a = Eq.
Proof. unfold Ascii.compare. apply N.compare_refl. Qed.

Lemma ascii_compare_lt_trans (a b c : ascii) :
  Ascii.compare a b = Lt -> Ascii.compare b c = Lt -> Ascii.compare a c = Lt.
Proof.
  unfold Ascii.compare. rewrite !N.compare_lt_iff. apply N.lt_trans.
Qed.

Lemma string_compare_lt_trans (a b c : string) :
  String.compare a b = Lt -> String.compare b c = Lt -> String.compare a c = Lt.
Proof.
  revert b c.
  induction a as [| x a IH]; intros [| y b] [| z c]; simpl; try easy.
  destruct (Ascii.compare x y) eqn:Hxy; try discriminate.
  - apply Ascii.compare_eq_iff in Hxy as ->.
    destruct (Ascii.compare y z); try easy. apply IH.
  - intros _. destruct (Ascii.compare y z) eqn:Hyz; try discriminate.
    + apply Ascii.compare_eq_iff in Hyz as <-. now rewrite Hxy.
    + intros _. now rewrite (ascii_compare_lt_trans x y z).
Qed.

Lemma str_le_cases (a b : string) :
  str_le a b <-> String.compare a b = Lt \/ a = b.
Proof.
  unfold str_le, String.leb. split.
  - destruct (String.compare a b) eqn:Hc; try discriminate; intros _.
    + right. now apply String.compare_eq_iff.
    + now left.
  - intros [-> | ->]; [reflexivity |].
    destruct (String.compare b b) eqn:Hc; try reflexivity.
    pose proof (String.compare_antisym b b) as Hopp.
    rewrite Hc in Hopp. discriminate Hopp.
Qed.

Lemma str_le_trans (a b c : string) : str_le a b -> str_le b c -> str_le a c.
Proof.
  rewrite !str_le_cases. intros [Hab | ->] [Hbc | ->]; auto.
  left. now apply (string_compare_lt_trans a b c).
Qed.

(** [str_le] compares the first characters by code and moves on when they
    are equal; the empty string comes first. *)
Lemma str_le_lexicographic (x y : ascii) (a b : string) :
  (str_le EmptyString a) /\
  (~ str_le (String x a) EmptyString) /\
  (str_le (String x a) (String y b) <->
     (nat_of_ascii x < nat_of_ascii y)%nat \/ (x = y /\ str_le a b)).
Proof.
  split; [now destruct a |]. split; [discriminate |].
  unfold str_le, String.leb. simpl. unfold Ascii.compare.
  destruct (N.compare_spec (N_of_ascii x) (N_of_ascii y)) as [He | Hl | Hg].
  - apply (f_equal ascii_of_N) in He. rewrite !ascii_N_embedding in He.
    subst y. split; [now right |]. intros [Hlt | [_ Hle]]; [lia | exact Hle].
  - split; [| reflexivity]. intros _. left.
    unfold nat_of_ascii. lia.
  - split; [discriminate |]. unfold nat_of_ascii.
    intros [Hlt | [-> _]]; lia.
Qed.

Lemma sorted_strongly (l : list string) : StronglySorted str_le (sorted l).
Proof.
  apply StringSort.StronglySorted_sort.
  intros a b c. apply str_le_trans.
Qed.

Lemma append_loop_filter {A} (f : A -> bool) (l acc : list A) :
  fold_left (fun acc x => if f x then (acc ++ [x])%list else acc) l acc
  = (acc ++ filter f l)%list.
Proof.
  revert acc. induction l as [| x l IH]; intros acc; simpl.
  - now rewrite app_nil_r.
  - rewrite IH. destruct (f x); [| reflexivity].
    now rewrite <- app_assoc.
Qed.

Lemma list_benchmarks_eq (h : Host) (self : BenchmarkRunner) (tr : trace)
      (entries : list string) :
  fs_iterdir h (benchmarks_dir self) = Ok entries ->
  list_benchmarks h self tr =
    (Ok (sorted (filter (qualifies h self) entries)), tr).
Proof.
  intros Hls. unfold list_benchmarks, bind, lift, ret. rewrite Hls.
  now rewrite append_loop_filter.
Qed.

(** C9. When the benchmarks root can be listed, [list_benchmarks] returns
    the names of its children that are directories holding
    [verification/verify.sh] -- those and no others, each as often as the
    listing has it -- in lexicographic order, and the trace of effects is
    left as it was. *)
Theorem list_benchmarks_spec (h : Host) (self : BenchmarkRunner) (tr : trace)
        (entries : list string) :
  fs_iterdir h (benchmarks_dir self) = Ok entries ->
  exists names,
    list_benchmarks h self tr = (Ok names, tr) /\
    StronglySorted str_le names /\
    Permutation (filter (qualifies h self) entries) names /\
    (forall n, In n names <->
       In n entries /\
       fs_is_dir h (benchmarks_dir self // n) = true /\
       fs_exists h (benchmarks_dir self // n // "verification" // "verify.sh")
         = true).
Proof.
  intros Hls. exists (sorted (filter (qualifies h self) entries)).
  split; [now apply list_benchmarks_eq |].
  split; [apply sorted_strongly |].
  assert (Hperm : Permutation (filter (qualifies h self) entries)
                    (sorted (filter (qualifies h self) entries)))
    by apply StringSort.Permuted_sort.
  split; [exact Hperm |].
  intros n. split.
  - intros Hin. apply (Permutation_in _ (Permutation_sym Hperm)) in Hin.
    apply filter_In in Hin as [Hin Hq]. unfold qualifies in Hq.
    apply andb_true_iff in Hq. tauto.
  - intros (Hin & Hd & Hv). apply (Permutation_in _ Hperm).
    apply filter_In. split; [exact Hin |].
    unfold qualifies. now rewrite Hd, Hv.
Qed.

Lemma list_benchmarks_spec_witness :
  exists names,
    list_benchmarks Demo.host Demo.runner [] = (Ok names, []) /\
    StronglySorted str_le names /\
    Permutation ["zeta"; "alpha"; "broken"; "slow"; "listy"] names /\
    (forall n, In n names <->
       In n ["zeta"; "notes.txt"; "alpha"; "ghost"; "broken"; "slow"; "listy"] /\
       fs_is_dir Demo.host ("/repo/benchmarks" // n) = true /\
       fs_exists Demo.host ("/repo/benchmarks" // n // "verification" // "verify.sh")
         = true).
Proof.
  exact (list_benchmarks_spec Demo.host Demo.runner []
           ["zeta"; "notes.txt"; "alpha"; "ghost"; "broken"; "slow"; "listy"]
           eq_refl).
Defined.

(** ** main *)

Lemma bind_run {A B} (m : M A) (k : A -> M B) (tr tr' : trace) (a : A) :
  m tr = (Ok a, tr') -> bind m k tr = k a tr'.
Proof. intros Hm. unfold bind. now rewrite Hm. Qed.

(** Run the first computation of a sequence with the equation [H] that
    gives its outcome. *)
Tactic Notation "run_first" uconstr(H) := rewrite (bind_run _ _ _ _ _ H).



Section MainFacts.

Variable h : Host.

Lemma run_benchmark_eq (self : BenchmarkRunner) (name : string) (tr : trace) :
  run_benchmark h self name tr =
    (Ok (result_of h self name), (tr ++ effects_of h self name)%list).
Proof.
  unfold result_of, effects_of.
  destruct (fs_exists h (verify_script_of self name)) eqn:He.
  - now apply run_benchmark_dispatch.
  - rewrite app_nil_r. now apply run_benchmark_missing.
Qed.

Lemma result_of_is_dict (self : BenchmarkRunner) (name : string) :
  exists d, result_of h self name = JObj d.
Proof.
  unfold result_of. destruct (fs_exists h (verify_script_of self name)).
  - apply settle_is_dict.
  - now eexists.
Qed.

Lemma run_passed_result_of (self : BenchmarkRunner) (name : string) :
  py_get (result_of h self name) "passed" (JBool false)
  = Ok (match result_of h self name with
        | JObj d => match dict_get "passed" d with
                    | Some p => p
                    | None => JBool false
                    end
        | _ => JNull
        end) /\
  run_passed h self name
  = truthy (match result_of h self name with
            | JObj d => match dict_get "passed" d with
                        | Some p => p
                        | None => JBool false
                        end
            | _ => JNull
            end).
Proof.
  unfold run_passed. rewrite run_benchmark_eq. simpl fst.
  destruct (result_of_is_dict self name) as [d ->]. now split.
Qed.

Lemma count_passed_results (self : BenchmarkRunner) (names : list string) :
  count_passed (map (result_of h self) names)
  = Ok (List.length (filter (run_passed h self) names)).
Proof.
  induction names as [| n names IH]; simpl; [reflexivity |].
  destruct (run_passed_result_of self n) as [Hget Hpass].
  rewrite Hget, IH. simpl. rewrite Hpass.
  now destruct (truthy _).
Qed.

Lemma init_run (benchmarks results : path) (tr : trace) :
  fs_mkdir h results = Ok tt ->
  BenchmarkRunner_init h benchmarks results tr =
    (Ok {| RunBenchmark.benchmarks_dir := benchmarks;
           RunBenchmark.results_dir := results |},
     (tr ++ [EvMkdir results])%list).
Proof.
  intros Hmk. unfold BenchmarkRunner_init, mkdir, bind, emit, lift, ret.
  now rewrite Hmk.
Qed.

Lemma json_dump_run (p : path) (v : json) (tr : trace) :
  fs_write h p v = Ok tt ->
  json_dump_to h p v tr = (Ok tt, (tr ++ [EvWrite p v])%list).
Proof.
  intros Hwr. unfold json_dump_to, bind, emit, lift. now rewrite Hwr.
Qed.

Lemma print_items_run (names : list string) (tr : trace) :
  for_each names (fun _ benchmark => print (MsgItem benchmark)) tt tr =
    (Ok tt, (tr ++ map (fun b => EvPrint (MsgItem b)) names)%list).
Proof.
  revert tr. induction names as [| n names IH]; intros tr; simpl.
  - unfold ret. now rewrite app_nil_r.
  - unfold bind, print, emit. rewrite IH. now rewrite <- app_assoc.
Qed.

End MainFacts.

(** The four ways to call the runner on the demo repository: one passing
    benchmark, a sweep in which [zeta] fails, the listing, no request. *)
Example main_exit_codes :
  fst (main Demo.host
         {| arg_benchmark := Some "alpha"; arg_all := false; arg_list := false;
            arg_results_dir := "/repo/results" |} []) = Ok 0%Z /\
  fst (main Demo.host run_all []) = Ok 1%Z /\
  fst (main Demo.host
         {| arg_benchmark := None; arg_all := false; arg_list := true;
            arg_results_dir := "/repo/results" |} []) = Ok 0%Z /\
  fst (main Demo.host
         {| arg_benchmark := None; arg_all := false; arg_list := false;
            arg_results_dir := "/repo/results" |} []) = Ok 1%Z.
Proof. repeat split. Qed.

(** ** load_results *)

Section LoaderFacts.

Variable h : Host.
Variable self : LeaderboardGenerator.

Lemma load_file_frame (p : path) (results : list json) (tr : trace) :
  load_file h p results tr =
    (match fst (load_file h p [] []) with
     | Ok items => Ok (results ++ items)%list
     | Raise e => Raise e
     end, tr).
Proof.
  unfold load_file, bind, lift, ret.
  destruct (fs_read h p) as [text | e]; [| reflexivity].
  destruct (json_loads h text) as [data | e]; [| reflexivity].
  destruct (py_contains "results" data) as [[|] | e]; try reflexivity.
  destruct (py_getitem data "results") as [batch | e]; [| reflexivity].
  now destruct (py_iter batch).
Qed.

End LoaderFacts.

(** ** group_by_benchmark *)

Lemma key_eqb_str (n : string) (k : json) :
  key_eqb (JStr n) k = true <-> k = JStr n.
Proof.
  destruct k; simpl; try (split; [discriminate | intros H; discriminate H]).
  rewrite String.eqb_eq. split; [now intros -> | now intros [= ->]].
Qed.

Lemma group_lookup_append (n m : string) (r : json) (g : groups) :
  group_lookup (JStr m) (group_append (JStr n) r g) =
    if String.eqb m n then
      Some (match group_lookup (JStr n) g with
            | Some rs => rs ++ [r]
            | None => [r]
            end)%list
    else group_lookup (JStr m) g.
Proof.
  induction g as [| [k rs] g IH].
  - simpl. now destruct (String.eqb m n).
  - cbn [group_append group_lookup].
    destruct (key_eqb (JStr n) k) eqn:Hnk.
    + apply key_eqb_str in Hnk as ->. cbn [group_lookup key_eqb].
      now destruct (String.eqb m n).
    + cbn [group_lookup]. rewrite IH.
      destruct (String.eqb_spec m n) as [-> | Hmn]; [now rewrite Hnk |].
      reflexivity.
Qed.

Lemma group_append_keys (n : string) (r : json) (g : groups) :
  (In (JStr n) (map fst g) /\
   map fst (group_append (JStr n) r g) = map fst g) \/
  (~ In (JStr n) (map fst g) /\
   map fst (group_append (JStr n) r g) = (map fst g ++ [JStr n])%list).
Proof.
  induction g as [| [k rs] g IH]; cbn [group_append map fst].
  - right. split; [intros [] | reflexivity].
  - destruct (key_eqb (JStr n) k) eqn:Hnk.
    + apply key_eqb_str in Hnk as ->. left. split; [now left | reflexivity].
    + assert (Hne : k <> JStr n).
      { intros ->. rewrite (proj2 (key_eqb_str n (JStr n)) eq_refl) in Hnk.
        discriminate. }
      cbn [map fst].
      destruct IH as [[Hin Heq] | [Hnin Heq]]; rewrite Heq.
      * left. split; [now right | reflexivity].
      * right. split; [| reflexivity]. intros [Hk | Hin]; auto.
Qed.

Lemma named_key (r : json) :
  named r -> py_get r "benchmark" (JStr "unknown") = Ok (JStr (benchmark_of r)).
Proof.
  intros (d & -> & [Hnone | [s Hsome]]); simpl.
  - now rewrite Hnone.
  - now rewrite Hsome.
Qed.

Lemma group_of_snoc (name : string) (seen : list json) (r : json) :
  group_of name (seen ++ [r]) =
    (group_of name seen ++ if in_group name r then [r] else [])%list.
Proof.
  unfold group_of. rewrite filter_app. simpl. now destruct (in_group name r).
Qed.

Lemma grouped_from_step (seen : list json) (g : groups) (r : json) :
  grouped_from seen g ->
  grouped_from (seen ++ [r]) (group_append (JStr (benchmark_of r)) r g).
Proof.
  intros (Hnd & Hkeys & Hlook).
  set (n := benchmark_of r).
  split; [| split].
  - destruct (group_append_keys n r g) as [[_ ->] | [Hnin ->]]; [exact Hnd |].
    apply NoDup_app; [exact Hnd | repeat constructor; intros [] |].
    intros k Hk [<- | []]. contradiction.
  - intros k Hk.
    assert (Hcases : In k (map fst g) \/ k = JStr n).
    { destruct (group_append_keys n r g) as [[_ Heq] | [_ Heq]];
        rewrite Heq in Hk; [now left |].
      apply in_app_or in Hk as [Hk | [<- | []]]; [now left | now right]. }
    destruct Hcases as [Hin | ->].
    + destruct (Hkeys k Hin) as (r0 & Hr0 & ->).
      exists r0. split; [apply in_or_app; now left | reflexivity].
    + exists r. split; [apply in_or_app; right; now left | reflexivity].
  - intros name. rewrite group_lookup_append, group_of_snoc.
    unfold in_group. fold n. rewrite (String.eqb_sym n name).
    destruct (String.eqb_spec name n) as [-> | Hne].
    + rewrite Hlook. destruct (group_of n seen); reflexivity.
    + rewrite app_nil_r. apply Hlook.
Qed.

Lemma group_loop_grouped (rest seen : list json) (g : groups) :
  Forall named rest ->
  grouped_from seen g ->
  exists g', group_loop rest g = Ok g' /\ grouped_from (seen ++ rest) g'.
Proof.
  revert seen g.
  induction rest as [| r rest IH]; intros seen g Hnamed Hg.
  - exists g. rewrite app_nil_r. now split.
  - inversion Hnamed as [| r' rest' Hr Hrest]; subst.
    cbn [group_loop]. rewrite (named_key r Hr). cbn [res_bind hashable].
    destruct (IH (seen ++ [r])%list _ Hrest (grouped_from_step seen g r Hg))
      as (g' & Hloop & Hg').
    exists g'. split; [exact Hloop |]. now rewrite <- app_assoc in Hg'.
Qed.

(** C8. On results in the sense of the data model -- dicts whose
    ["benchmark"], when present, is a string -- [group_by_benchmark] returns
    a partition by name: the keys are distinct, each is the name of some
    result, and the group found under a name is the sublist of the results
    filed under that name, in input order (no key for a name nobody has).
    A result without a ["benchmark"] is filed under "unknown". *)
Theorem group_by_benchmark_spec (results : list json) :
  Forall named results ->
  exists g,
    group_by_benchmark results = Ok g /\
    NoDup (map fst g) /\
    (forall k, In k (map fst g) ->
       exists r, In r results /\ k = JStr (benchmark_of r)) /\
    (forall name,
       group_lookup (JStr name) g =
         if is_nil (group_of name results) then None
         else Some (group_of name results)) /\
    (forall r d, In r results -> r = JObj d -> dict_get "benchmark" d = None ->
       exists rs, group_lookup (JStr "unknown") g = Some rs /\ In r rs).
Proof.
  intros Hnamed.
  destruct (group_loop_grouped results [] [] Hnamed) as (g & Hloop & Hg).
  { split; [constructor | split]; [intros k [] | reflexivity]. }
  simpl in Hg. destruct Hg as (Hnd & Hkeys & Hlook).
  exists g. repeat split; try assumption.
  intros r d Hin -> Hnone.
  assert (Hmem : In (JObj d) (group_of "unknown" results)).
  { apply filter_In. split; [exact Hin |].
    unfold in_group, benchmark_of. now rewrite Hnone. }
  rewrite Hlook. destruct (group_of "unknown" results) as [| x xs];
    [destruct Hmem |].
  now eexists.
Qed.

Lemma group_by_benchmark_spec_witness :
  exists g,
    group_by_benchmark three_runs = Ok g /\
    group_lookup (JStr "b") g =
      Some [JObj [("benchmark", JStr "b"); ("final_score", JInt 1)];
            JObj [("benchmark", JStr "b"); ("final_score", JInt 3)]] /\
    group_lookup (JStr "unknown") g = Some [JObj [("final_score", JInt 2)]].
Proof.
  assert (Hnamed : Forall named three_runs).
  { repeat constructor.
    - eexists. split; [reflexivity |]. right. now eexists.
    - eexists. split; [reflexivity |]. now left.
    - eexists. split; [reflexivity |]. right. now eexists. }
  destruct (group_by_benchmark_spec three_runs Hnamed)
    as (g & Hrun & _ & _ & Hlook & _).
  exists g. split; [exact Hrun |].
  split; [exact (Hlook "b") | exact (Hlook "unknown")].
Defined.

(** ** calculate_statistics *)

(** C6. On the empty list [calculate_statistics] returns, without raising,
    the statistics whose five fields are all 0. *)
Theorem calculate_statistics_empty :
  calculate_statistics [] =
    Ok (JObj [("count", JInt 0);
              ("avg_score", JInt 0);
              ("min_score", JInt 0);
              ("max_score", JInt 0);
              ("pass_rate", JInt 0)]).
Proof. unfold calculate_statistics. cbn [is_nil]. reflexivity. Qed.





Section Best.

(** [better x b] says the item [x] replaces the running best [b];
    [ahead a b] says [a] is at least as good as [b]. *)
Variable better : Q -> Q -> bool.
Variable ahead : Q -> Q -> Prop.
Hypothesis ahead_refl : forall a, ahead a a.
Hypothesis ahead_trans : forall a b c, ahead a b -> ahead b c -> ahead a c.
Hypothesis better_true : forall x b, better x b = true -> ahead x b.
Hypothesis better_false : forall x b, better x b = false -> ahead b x.


End Best.





(** * Further properties *)

(** ** One run *)

Lemma spawns_app (tr1 tr2 : trace) :
  spawns (tr1 ++ tr2)%list = (spawns tr1 ++ spawns tr2)%list.
Proof.
  induction tr1 as [| ev tr1 IH]; [reflexivity |].
  destruct ev; simpl; now rewrite IH.
Qed.

Lemma writes_app (tr1 tr2 : trace) :
  writes (tr1 ++ tr2)%list = (writes tr1 ++ writes tr2)%list.
Proof.
  induction tr1 as [| ev tr1 IH]; [reflexivity |].
  destruct ev; simpl; now rewrite IH.
Qed.

Section RunFacts.

Variable h : Host.
Variable self : BenchmarkRunner.

Local Abbreviation script := (verify_script_of self).
Local Abbreviation cwd := (benchmark_path_of self).

(** X1. When the script ran to completion and its stdout is not JSON, the
    result carries the captured stdout and stderr unchanged, the return
    status under ["exit_code"], the benchmark name, the error
    "Invalid JSON output" and a null ["execution_time_ms"]. *)
Theorem run_benchmark_invalid_json (name : string) (tr : trace)
        (c : completed) (e : exn) :
  fs_exists h (script name) = true ->
  proc_run h (script name) (cwd name) = Ok c ->
  json_loads h (stdout c) = Raise e ->
  exn_cls e = JSONDecodeError ->
  exists d tr',
    run_benchmark h self name tr = (Ok (JObj d), tr') /\
    dict_get "benchmark" d = Some (JStr name) /\
    dict_get "error" d = Some (JStr "Invalid JSON output") /\
    dict_get "stdout" d = Some (JStr (stdout c)) /\
    dict_get "stderr" d = Some (JStr (stderr c)) /\
    dict_get "exit_code" d = Some (JInt (returncode c)) /\
    dict_get "execution_time_ms" d = Some JNull.
Proof.
  intros He Hrun Hload Hcls.
  rewrite (run_benchmark_dispatch h self name tr He), Hrun.
  cbn [settle]. rewrite Hload, Hcls.
  do 2 eexists. split; [reflexivity |]. repeat split.
Qed.

(** X2. Whatever the subprocess does -- exit, time out, fail to start --
    a run spawns the verification script exactly once when it exists, with
    the benchmark directory as working directory, and not at all when it
    does not; a run never writes a file. *)
Theorem run_benchmark_effects (name : string) (tr : trace) :
  spawns (snd (run_benchmark h self name tr)) =
    (spawns tr ++
     if fs_exists h (script name) then [(script name, cwd name)] else [])%list /\
  writes (snd (run_benchmark h self name tr)) = writes tr.
Proof.
  rewrite run_benchmark_eq. cbn [snd].
  rewrite spawns_app, writes_app. unfold effects_of, dispatched.
  destruct (fs_exists h (script name)); simpl; now rewrite ?app_nil_r.
Qed.

(** X3. Unless the script printed a JSON object of its own, the result is
    labelled by the runner: ["benchmark"] is the name that was asked for,
    and ["error"] and ["timestamp"] are set. *)
Theorem run_benchmark_labels_failures (name : string) (tr : trace) :
  ~ own_object h self name ->
  exists d tr' msg,
    run_benchmark h self name tr = (Ok (JObj d), tr') /\
    dict_get "benchmark" d = Some (JStr name) /\
    dict_get "error" d = Some (JStr msg) /\
    dict_get "timestamp" d = Some (timestamp_now h).
Proof.
  intros Hown. rewrite run_benchmark_eq. unfold result_of.
  assert (Herr : forall msg, exists d tr' msg',
             (Ok (error_result h name msg), (tr ++ effects_of h self name)%list)
             = (Ok (JObj d), tr') /\
             dict_get "benchmark" d = Some (JStr name) /\
             dict_get "error" d = Some (JStr msg') /\
             dict_get "timestamp" d = Some (timestamp_now h)).
  { intros msg. do 3 eexists. split; [reflexivity |]. repeat split. }
  destruct (fs_exists h (script name)) eqn:He; [| apply Herr].
  destruct (proc_run h (script name) (cwd name)) as [c | e] eqn:Hrun;
    cbn [settle]; [| rewrite recover_error_result; apply Herr].
  destruct (json_loads h (stdout c)) as [v | e] eqn:Hload.
  - destruct (add_metadata_not_dict h name c v) as [msg ->]; [| apply Herr].
    intros d ->. apply Hown. split; [exact He |]. now exists c, d.
  - destruct (exn_cls e) eqn:Hcls;
      try (rewrite recover_error_result; apply Herr).
    do 3 eexists. split; [reflexivity |]. repeat split.
Qed.

End RunFacts.

Lemma run_benchmark_labels_failures_witness :
  exists d tr' msg,
    run_benchmark Demo.host Demo.runner "slow" [] = (Ok (JObj d), tr') /\
    dict_get "benchmark" d = Some (JStr "slow") /\
    dict_get "error" d = Some (JStr msg) /\
    dict_get "timestamp" d = Some (timestamp_now Demo.host).
Proof.
  apply (run_benchmark_labels_failures Demo.host Demo.runner "slow" []).
  intros [_ (c & d & Hrun & _)]. discriminate Hrun.
Defined.

Lemma run_benchmark_invalid_json_witness :
  exists d tr',
    run_benchmark Demo.host Demo.runner "broken" [] = (Ok (JObj d), tr') /\
    dict_get "benchmark" d = Some (JStr "broken") /\
    dict_get "error" d = Some (JStr "Invalid JSON output") /\
    dict_get "stdout" d = Some (JStr "oops") /\
    dict_get "stderr" d = Some (JStr "Traceback") /\
    dict_get "exit_code" d = Some (JInt 2) /\
    dict_get "execution_time_ms" d = Some JNull.
Proof.
  exact (run_benchmark_invalid_json Demo.host Demo.runner "broken" []
           (Completed "oops" "Traceback" 2)
           (Exn JSONDecodeError "Expecting value: line 1 column 1 (char 0)")
           eq_refl eq_refl eq_refl eq_refl).
Defined.

(** ** Saving, sweeping, the command line *)

Section SweepFacts.

Variable h : Host.

Lemma sweep_loop_trace (self : BenchmarkRunner) (names : list string)
      (collected : list json) (tr : trace) :
  for_each names
    (fun collected benchmark =>
       result <- run_benchmark h self benchmark ;;
       passed <- lift (py_get result "passed" (JBool false)) ;;
       score <- lift (py_get result "final_score" (JInt 0)) ;;
       print (MsgStatus (truthy passed) score) ;;
       ret (collected ++ [result])%list)
    collected tr
  = (Ok (collected ++ map (result_of h self) names)%list,
     (tr ++ sweep_effects h self names)%list).
Proof.
  revert collected tr.
  induction names as [| n names IH]; intros collected tr; simpl.
  - unfold ret. now rewrite !app_nil_r.
  - unfold bind at 1. unfold bind at 1. rewrite run_benchmark_eq.
    destruct (result_of_is_dict h self n) as [d Hd]. rewrite Hd.
    unfold bind, lift, print, emit, ret. simpl.
    specialize (IH (collected ++ [JObj d])%list). unfold bind, lift, print,
      emit, ret in IH. rewrite IH.
    now rewrite <- !app_assoc.
Qed.

Lemma run_all_benchmarks_trace (self : BenchmarkRunner) (tr : trace)
      (entries : list string) :
  fs_iterdir h (benchmarks_dir self) = Ok entries ->
  run_all_benchmarks h self tr =
    (Ok {| run_timestamp := timestamp_now h;
           total_benchmarks := List.length (discovered h self entries);
           results := map (result_of h self) (discovered h self entries) |},
     (tr ++ sweep_effects h self (discovered h self entries))%list).
Proof.
  intros Hls. unfold run_all_benchmarks.
  run_first (list_benchmarks_eq h self tr entries Hls).
  fold (discovered h self entries).
  now run_first (sweep_loop_trace self (discovered h self entries) [] tr).
Qed.

Lemma discovered_exists (self : BenchmarkRunner) (entries : list string)
      (n : string) :
  In n (discovered h self entries) ->
  In n entries /\ fs_exists h (verify_script_of self n) = true.
Proof.
  intros Hin. unfold discovered, sorted in Hin.
  apply (Permutation_in _
           (Permutation_sym (StringSort.Permuted_sort _))) in Hin.
  apply filter_In in Hin as [Hin Hq]. split; [exact Hin |].
  unfold qualifies in Hq. apply andb_true_iff in Hq as [_ Hq]. exact Hq.
Qed.

Lemma sweep_effects_spawns (self : BenchmarkRunner) (names : list string) :
  (forall n, In n names -> fs_exists h (verify_script_of self n) = true) ->
  spawns (sweep_effects h self names) =
    map (fun n => (verify_script_of self n, benchmark_path_of self n)) names /\
  writes (sweep_effects h self names) = [].
Proof.
  induction names as [| n names IH]; intros Hex; [now split |].
  unfold sweep_effects. cbn [flat_map]. fold (sweep_effects h self names).
  rewrite !spawns_app, !writes_app.
  destruct IH as [IHs IHw]; [intros m Hm; apply Hex; now right |].
  rewrite IHs, IHw. unfold effects_of, dispatched.
  rewrite (Hex n (or_introl eq_refl)).
  destruct (result_of_is_dict h self n) as [d ->]. now split.
Qed.

(** X6. A sweep dispatches every discovered benchmark exactly once, in
    sorted order, each from its own directory, and writes no file. *)
Theorem run_all_benchmarks_dispatches (self : BenchmarkRunner) (tr : trace)
        (entries : list string) :
  fs_iterdir h (benchmarks_dir self) = Ok entries ->
  spawns (snd (run_all_benchmarks h self tr)) =
    (spawns tr ++
     map (fun n => (verify_script_of self n, benchmark_path_of self n))
         (discovered h self entries))%list /\
  writes (snd (run_all_benchmarks h self tr)) = writes tr.
Proof.
  intros Hls. rewrite (run_all_benchmarks_trace self tr entries Hls).
  cbn [snd]. rewrite spawns_app, writes_app.
  destruct (sweep_effects_spawns self (discovered h self entries))
    as [Hs Hw].
  { intros n Hn. now apply (discovered_exists self entries). }
  rewrite Hs, Hw. now rewrite app_nil_r.
Qed.

End SweepFacts.

Section CommandLineFacts.

Variable h : Host.

Lemma save_result_eq (self : BenchmarkRunner) (d : list (string * json))
      (tr : trace) :
  (forall p v, fs_write h p v = Ok tt) ->
  save_result h self (JObj d) tr =
    (Ok (RunBenchmark.results_dir self //
           (label_of h d ++ "_" ++ utcnow_stamp h ++ ".json")),
     (tr ++ [EvWrite (RunBenchmark.results_dir self //
                        (label_of h d ++ "_" ++ utcnow_stamp h ++ ".json"))
                     (JObj d)])%list).
Proof.
  intros Hwr.
  unfold save_result, bind, lift, json_dump_to, emit, ret, label_of.
  cbn [py_get]. rewrite Hwr. now destruct (dict_get "benchmark" d).
Qed.

(** X7. With [--list], whatever else is on the command line, [main]
    creates the results directory, prints the number of discovered
    benchmarks and then their names in sorted order, and returns 0: nothing
    is run and nothing is written. *)
Theorem main_list_only_lists (args : Args) (tr : trace) (entries : list string) :
  arg_list args = true ->
  fs_mkdir h (arg_results_dir args) = Ok tt ->
  fs_iterdir h (project_root h // "benchmarks") = Ok entries ->
  main h args tr =
    (Ok 0%Z,
     (tr ++
      EvMkdir (arg_results_dir args)
      :: EvPrint (MsgAvailable
                    (List.length (discovered h (main_runner h args) entries)))
      :: map (fun b => EvPrint (MsgItem b))
             (discovered h (main_runner h args) entries))%list).
Proof.
  intros Hlist Hmk Hent. unfold main. rewrite Hlist.
  run_first (init_run h _ _ tr Hmk). fold (main_runner h args).
  run_first (list_benchmarks_eq h (main_runner h args) _ entries Hent).
  fold (discovered h (main_runner h args) entries).
  unfold bind at 1. unfold print at 1, emit at 1.
  unfold bind at 1. rewrite print_items_run. unfold ret.
  now rewrite <- !app_assoc.
Qed.

(** X8. With [--all] (and no [--list]), when the host lets it, [main] runs
    every discovered benchmark once, in sorted order, and writes exactly one
    file, [all_benchmarks_<stamp>.json] under the results directory: the
    report with the run timestamp, the number of benchmarks and the list
    of the results the runs returned. *)
Theorem main_all_persists_report (args : Args) (tr : trace)
        (entries : list string) :
  arg_list args = false ->
  arg_all args = true ->
  fs_mkdir h (arg_results_dir args) = Ok tt ->
  (forall p v, fs_write h p v = Ok tt) ->
  fs_iterdir h (project_root h // "benchmarks") = Ok entries ->
  exists rs,
    Forall2 (fun name r => fst (run_benchmark h (main_runner h args) name []) = Ok r)
            (discovered h (main_runner h args) entries) rs /\
    writes (snd (main h args tr)) =
      (writes tr ++
       [(arg_results_dir args // ("all_benchmarks_" ++ utcnow_stamp h ++ ".json"),
         JObj [("run_timestamp", timestamp_now h);
               ("total_benchmarks", JInt (Z.of_nat (List.length rs)));
               ("results", JArr rs)])])%list /\
    spawns (snd (main h args tr)) =
      (spawns tr ++
       map (fun n => (verify_script_of (main_runner h args) n,
                      benchmark_path_of (main_runner h args) n))
           (discovered h (main_runner h args) entries))%list.
Proof.
  intros Hlist Hall Hmk Hwr Hent.
  set (names := discovered h (main_runner h args) entries).
  exists (map (result_of h (main_runner h args)) names).
  split.
  { induction names as [| n names IH]; constructor; [| exact IH].
    now rewrite run_benchmark_eq. }
  assert (Hmain : exists code,
             main h args tr =
               (Ok code,
                (tr ++ EvMkdir (arg_results_dir args)
                    :: sweep_effects h (main_runner h args) names ++
                    [EvWrite
                       (arg_results_dir args //
                          ("all_benchmarks_" ++ utcnow_stamp h ++ ".json"))
                       (report_json
                          {| run_timestamp := timestamp_now h;
                             total_benchmarks := List.length names;
                             results :=
                               map (result_of h (main_runner h args)) names |});
                     EvPrint (MsgSaved
                       (arg_results_dir args //
                          ("all_benchmarks_" ++ utcnow_stamp h ++ ".json")));
                     EvPrint (MsgSummary
                       (List.length
                          (filter (run_passed h (main_runner h args)) names))
                       (List.length names))])%list)).
  { unfold main. rewrite Hlist, Hall.
    run_first (init_run h _ _ tr Hmk). fold (main_runner h args).
    run_first (run_all_benchmarks_trace h (main_runner h args) _ entries Hent).
    fold names.
    run_first (json_dump_run h _ _ _ (Hwr _ _)).
    unfold bind at 1. unfold print at 1, emit at 1.
    unfold bind at 1. unfold lift at 1. cbn [results total_benchmarks].
    rewrite count_passed_results.
    unfold bind, print, emit, ret. eexists. f_equal.
    rewrite <- !app_assoc. reflexivity. }
  destruct Hmain as [code ->]. cbn [snd].
  destruct (sweep_effects_spawns h (main_runner h args) names) as [Hs Hw].
  { intros n Hn. now apply (discovered_exists h (main_runner h args) entries). }
  rewrite spawns_app, writes_app. cbn [spawns writes].
  rewrite spawns_app, writes_app, Hs, Hw. cbn [spawns writes app].
  unfold report_json. cbn [run_timestamp total_benchmarks results].
  rewrite length_map, !app_nil_r. now split.
Qed.

(** X9. With one benchmark name (and neither [--list] nor [--all]), when
    the host lets it, [main] runs that benchmark -- spawning its script once
    if it exists -- and writes exactly one file holding the result the run
    returned, named after the result's ["benchmark"] and the clock. *)
Theorem main_single_persists_result (args : Args) (tr : trace) (name : string) :
  arg_list args = false ->
  arg_all args = false ->
  given_benchmark args = Some name ->
  fs_mkdir h (arg_results_dir args) = Ok tt ->
  (forall p v, fs_write h p v = Ok tt) ->
  exists d,
    fst (run_benchmark h (main_runner h args) name []) = Ok (JObj d) /\
    writes (snd (main h args tr)) =
      (writes tr ++
       [(arg_results_dir args // (label_of h d ++ "_" ++ utcnow_stamp h ++ ".json"),
         JObj d)])%list /\
    spawns (snd (main h args tr)) =
      (spawns tr ++
       if fs_exists h (verify_script_of (main_runner h args) name)
       then [(verify_script_of (main_runner h args) name,
              benchmark_path_of (main_runner h args) name)]
       else [])%list.
Proof.
  intros Hlist Hall Hname Hmk Hwr.
  destruct (result_of_is_dict h (main_runner h args) name) as [d Hd].
  exists d. split; [now rewrite run_benchmark_eq, Hd |].
  assert (Hmain : exists code,
             main h args tr =
               (Ok code,
                (tr ++ EvMkdir (arg_results_dir args)
                    :: effects_of h (main_runner h args) name ++
                    [EvWrite
                       (arg_results_dir args //
                          (label_of h d ++ "_" ++ utcnow_stamp h ++ ".json"))
                       (JObj d);
                     EvPrint (MsgSaved
                       (arg_results_dir args //
                          (label_of h d ++ "_" ++ utcnow_stamp h ++ ".json")));
                     EvPrint (MsgJson (JObj d))])%list)).
  { unfold main. rewrite Hlist, Hall, Hname.
    run_first (init_run h _ _ tr Hmk). fold (main_runner h args).
    run_first (run_benchmark_eq h (main_runner h args) name _).
    rewrite Hd.
    run_first (save_result_eq (main_runner h args) d _ Hwr).
    unfold bind, print, emit, lift, ret. cbn [py_get]. eexists. f_equal.
    rewrite <- !app_assoc. reflexivity. }
  destruct Hmain as [code ->]. cbn [snd].
  rewrite spawns_app, writes_app. cbn [spawns writes].
  rewrite spawns_app, writes_app. cbn [spawns writes].
  unfold effects_of, dispatched.
  destruct (fs_exists h (verify_script_of (main_runner h args) name));
    cbn [spawns writes app]; rewrite ?app_nil_r; now split.
Qed.

(** X10. When the benchmarks root cannot be listed, [--list] and [--all]
    end in the exception of the listing right after the results directory
    is created: nothing is run or written, and the process status is 1. *)
Theorem main_listing_fails (args : Args) (tr : trace) (e : exn) :
  arg_list args || arg_all args = true ->
  fs_mkdir h (arg_results_dir args) = Ok tt ->
  fs_iterdir h (project_root h // "benchmarks") = Raise e ->
  main h args tr = (Raise e, (tr ++ [EvMkdir (arg_results_dir args)])%list) /\
  exit_status (fst (main h args tr)) = 1%Z.
Proof.
  intros Hmode Hmk Hent.
  assert (Hmain : main h args tr =
                  (Raise e, (tr ++ [EvMkdir (arg_results_dir args)])%list)).
  { unfold main. run_first (init_run h _ _ tr Hmk).
    destruct (arg_list args).
    - unfold bind, list_benchmarks, lift.
      cbn [RunBenchmark.benchmarks_dir]. now rewrite Hent.
    - simpl in Hmode. rewrite Hmode.
      unfold bind, run_all_benchmarks, list_benchmarks, bind, lift.
      cbn [RunBenchmark.benchmarks_dir]. now rewrite Hent. }
  split; [exact Hmain | now rewrite Hmain].
Qed.

End CommandLineFacts.

Lemma run_all_benchmarks_dispatches_witness :
  spawns (snd (run_all_benchmarks Demo.host Demo.runner [])) =
    [("/repo/benchmarks/alpha/verification/verify.sh", "/repo/benchmarks/alpha");
     ("/repo/benchmarks/broken/verification/verify.sh", "/repo/benchmarks/broken");
     ("/repo/benchmarks/listy/verification/verify.sh", "/repo/benchmarks/listy");
     ("/repo/benchmarks/slow/verification/verify.sh", "/repo/benchmarks/slow");
     ("/repo/benchmarks/zeta/verification/verify.sh", "/repo/benchmarks/zeta")] /\
  writes (snd (run_all_benchmarks Demo.host Demo.runner [])) = [].
Proof.
  exact (run_all_benchmarks_dispatches Demo.host Demo.runner [] demo_entries
           eq_refl).
Defined.

Lemma main_list_only_lists_witness :
  main Demo.host list_only [] =
    (Ok 0%Z,
     [EvMkdir "/repo/results"; EvPrint (MsgAvailable 5);
      EvPrint (MsgItem "alpha"); EvPrint (MsgItem "broken");
      EvPrint (MsgItem "listy"); EvPrint (MsgItem "slow");
      EvPrint (MsgItem "zeta")]).
Proof.
  exact (main_list_only_lists Demo.host list_only [] demo_entries
           eq_refl eq_refl eq_refl).
Defined.

Lemma main_all_persists_report_witness :
  exists rs,
    Forall2 (fun name r =>
               fst (run_benchmark Demo.host (main_runner Demo.host run_all) name [])
               = Ok r)
            ["alpha"; "broken"; "listy"; "slow"; "zeta"] rs /\
    writes (snd (main Demo.host run_all [])) =
      [("/repo/results/all_benchmarks_20240101_000000.json",
        JObj [("run_timestamp", JStr "2024-01-01T00:00:00Z");
              ("total_benchmarks", JInt (Z.of_nat (List.length rs)));
              ("results", JArr rs)])] /\
    spawns (snd (main Demo.host run_all [])) =
      map (fun n => (verify_script_of (main_runner Demo.host run_all) n,
                     benchmark_path_of (main_runner Demo.host run_all) n))
          ["alpha"; "broken"; "listy"; "slow"; "zeta"].
Proof.
  exact (main_all_persists_report Demo.host run_all [] demo_entries
           eq_refl eq_refl eq_refl (fun _ _ => eq_refl) eq_refl).
Defined.

Lemma main_single_persists_result_witness :
  exists d,
    fst (run_benchmark Demo.host (main_runner Demo.host run_zeta) "zeta" [])
      = Ok (JObj d) /\
    writes (snd (main Demo.host run_zeta [])) =
      [("/repo/results" // (label_of Demo.host d ++ "_20240101_000000.json"),
        JObj d)] /\
    spawns (snd (main Demo.host run_zeta [])) =
      [("/repo/benchmarks/zeta/verification/verify.sh", "/repo/benchmarks/zeta")].
Proof.
  exact (main_single_persists_result Demo.host run_zeta [] "zeta"
           eq_refl eq_refl eq_refl eq_refl (fun _ _ => eq_refl)).
Defined.

Lemma main_listing_fails_witness :
  main lost_host run_all [] =
    (Raise (Exn OSError "[Errno 2] No such file or directory"),
     [EvMkdir "/repo/results"]) /\
  exit_status (fst (main lost_host run_all [])) = 1%Z.
Proof.
  exact (main_listing_fails lost_host run_all []
           (Exn OSError "[Errno 2] No such file or directory")
           eq_refl eq_refl eq_refl).
Defined.

(** ** From the runner to the loader *)

Section RoundTrip.

Variable h : Host.

Lemma failure_result_has_no_batch (self : BenchmarkRunner) (name : string) :
  ~ own_object h self name ->
  exists d, result_of h self name = JObj d /\ dict_get "results" d = None.
Proof.
  intros Hown. unfold result_of.
  destruct (fs_exists h (verify_script_of self name)) eqn:He;
    [| now eexists].
  destruct (proc_run h (verify_script_of self name) (benchmark_path_of self name))
    as [c | e] eqn:Hrun; cbn [settle];
    [| rewrite recover_error_result; now eexists].
  destruct (json_loads h (stdout c)) as [v | e] eqn:Hload.
  - destruct (add_metadata_not_dict h name c v) as [msg ->]; [| now eexists].
    intros d ->. apply Hown. split; [exact He |]. now exists c, d.
  - destruct (exn_cls e); try (rewrite recover_error_result; now eexists).
    now eexists.
Qed.

(** X11. The file a sweep writes loads back as the results of the sweep: if
    reading and parsing a file gives the report that [main --all] dumps,
    [load_results] takes from it exactly the list of results of the report,
    in order, and prints no warning. *)
Theorem sweep_report_loads_back (self : LeaderboardGenerator) (name : string)
        (text : string) (report : Report) :
  fs_read h (file_path self name) = Ok text ->
  json_loads h text = Ok (report_json report) ->
  contribution h self name = results report /\
  warning h self name = [].
Proof.
  intros Hread Hload.
  unfold contribution, warning, load_file, bind, lift, ret.
  rewrite Hread, Hload. now split.
Qed.

(** X12. The file [save_result] writes for a run that did not print an
    object of its own loads back as that one result: the runner's error
    results have no ["results"] key, so the loader appends them whole. *)
Theorem failure_result_loads_back (runner : BenchmarkRunner) (benchmark : string)
        (self : LeaderboardGenerator) (name : string) (text : string) (r : json) :
  ~ own_object h runner benchmark ->
  fst (run_benchmark h runner benchmark []) = Ok r ->
  fs_read h (file_path self name) = Ok text ->
  json_loads h text = Ok r ->
  contribution h self name = [r] /\
  warning h self name = [].
Proof.
  intros Hown Hrun Hread Hload.
  rewrite run_benchmark_eq in Hrun. injection Hrun as <-.
  destruct (failure_result_has_no_batch runner benchmark Hown)
    as (d & Hd & Hnone).
  rewrite Hd in Hload.
  unfold contribution, warning, load_file, bind, lift, ret.
  rewrite Hread, Hload. cbn [py_contains]. rewrite Hnone, Hd. now split.
Qed.

End RoundTrip.

(** ** More on the listing *)

(** X13. When the children of the benchmarks root have distinct names, so
    have the benchmarks that [list_benchmarks] returns. *)
Theorem list_benchmarks_distinct (h : Host) (self : BenchmarkRunner)
        (tr : trace) (entries : list string) :
  fs_iterdir h (benchmarks_dir self) = Ok entries ->
  NoDup entries ->
  exists names,
    fst (list_benchmarks h self tr) = Ok names /\ NoDup names.
Proof.
  intros Hls Hnd. exists (discovered h self entries).
  split; [now rewrite (list_benchmarks_eq h self tr entries Hls) |].
  unfold discovered, sorted.
  apply (Permutation_NoDup (StringSort.Permuted_sort _)).
  now apply NoDup_filter.
Qed.

Lemma sweep_report_loads_back_witness :
  contribution archive_host Demo.generator "sweep.json" = [Demo.alpha_json] /\
  warning archive_host Demo.generator "sweep.json" = [].
Proof.
  exact (sweep_report_loads_back archive_host Demo.generator "sweep.json"
           sweep_text sweep_report eq_refl eq_refl).
Defined.

Lemma failure_result_loads_back_witness :
  contribution archive_host Demo.generator "slow.json"
    = [JObj [("benchmark", JStr "slow");
             ("error", JStr "Execution timeout (300s)");
             ("timestamp", JStr "2024-01-01T00:00:00Z")]] /\
  warning archive_host Demo.generator "slow.json" = [].
Proof.
  apply (failure_result_loads_back archive_host Demo.runner "slow"
           Demo.generator "slow.json" slow_text).
  - intros [_ (c & d & Hrun & _)]. discriminate Hrun.
  - reflexivity.
  - reflexivity.
  - reflexivity.
Defined.

Lemma list_benchmarks_distinct_witness :
  exists names,
    fst (list_benchmarks Demo.host Demo.runner []) = Ok names /\ NoDup names.
Proof.
  apply (list_benchmarks_distinct Demo.host Demo.runner [] demo_entries).
  - reflexivity.
  - repeat (apply NoDup_cons;
            [intros Hin; repeat (destruct Hin as [Hin | Hin];
                                 [discriminate Hin |]); exact Hin |]).
    apply NoDup_nil.
Defined.

(** ** More on grouping *)

Lemma all_runs_append (k r : json) (g : groups) :
  Permutation (all_runs (group_append k r g)) (r :: all_runs g).
Proof.
  unfold all_runs.
  induction g as [| [k' rs] g IH]; cbn [group_append flat_map snd].
  - reflexivity.
  - destruct (key_eqb k k'); cbn [flat_map snd].
    + rewrite <- app_assoc. simpl.
      apply Permutation_sym, Permutation_middle.
    + rewrite IH. apply Permutation_sym, Permutation_middle.
Qed.

Lemma group_append_nonempty (k r : json) (g : groups) :
  Forall (fun kv => snd kv <> []) g ->
  Forall (fun kv => snd kv <> []) (group_append k r g).
Proof.
  induction 1 as [| [k' rs] g Hrs Hg IH]; cbn [group_append].
  - repeat constructor. discriminate.
  - destruct (key_eqb k k'); constructor.
    + cbn [snd]. now destruct rs.
    + exact Hg.
    + exact Hrs.
    + exact IH.
Qed.

Lemma group_loop_partition (rest : list json) (g g' : groups) :
  group_loop rest g = Ok g' ->
  Forall (fun kv => snd kv <> []) g ->
  Permutation (all_runs g') (all_runs g ++ rest) /\
  Forall (fun kv => snd kv <> []) g'.
Proof.
  revert g.
  induction rest as [| r rest IH]; intros g Hloop Hne; cbn [group_loop] in Hloop.
  - injection Hloop as <-. now rewrite app_nil_r.
  - destruct (py_get r "benchmark" (JStr "unknown")) as [k | e];
      cbn [res_bind] in Hloop; [| discriminate].
    destruct (hashable k); [| discriminate].
    destruct (IH _ Hloop (group_append_nonempty k r g Hne)) as [Hperm Hne'].
    split; [| exact Hne'].
    rewrite Hperm, all_runs_append. simpl.
    apply Permutation_middle.
Qed.

(** X14. Whenever [group_by_benchmark] returns, nothing is lost, duplicated
    or invented: the groups, read one after the other, are a rearrangement
    of the input list, and no group is empty. *)
Theorem group_by_benchmark_partition (results : list json) (g : groups) :
  group_by_benchmark results = Ok g ->
  Permutation (all_runs g) results /\
  Forall (fun kv => snd kv <> []) g /\
  List.length (all_runs g) = List.length results.
Proof.
  intros Hrun.
  destruct (group_loop_partition results [] g Hrun (Forall_nil _))
    as [Hperm Hne].
  split; [exact Hperm |]. split; [exact Hne |].
  now apply Permutation_length.
Qed.

Lemma group_loop_succeeds (rest : list json) (g : groups) :
  (exists g', group_loop rest g = Ok g') <-> Forall groupable rest.
Proof.
  revert g.
  induction rest as [| r rest IH]; intros g; cbn [group_loop].
  - split; [constructor | now eexists].
  - split.
    + intros [g' Hloop].
      destruct r as [| b | z | q | s | xs | d]; try discriminate Hloop.
      cbn [py_get res_bind] in Hloop.
      destruct (hashable _) eqn:Hk; [| discriminate].
      constructor; [now exists d |].
      eapply IH. exists g'. exact Hloop.
    + intros Hall. inversion Hall as [| r' rest' (d & -> & Hk) Hrest]; subst.
      cbn [py_get res_bind]. rewrite Hk. now apply IH.
Qed.

(** X15. [group_by_benchmark] returns exactly when every result is a dict
    whose ["benchmark"], if present, can be a dict key; a result that is not
    a dict, or whose ["benchmark"] is a list or a dict, makes it raise. *)
Theorem group_by_benchmark_succeeds_iff (results : list json) :
  (exists g, group_by_benchmark results = Ok g) <-> Forall groupable results.
Proof. apply group_loop_succeeds. Qed.

Lemma group_by_benchmark_partition_witness :
  exists g,
    group_by_benchmark three_runs = Ok g /\
    Permutation (all_runs g) three_runs /\
    Forall (fun kv => snd kv <> []) g /\
    List.length (all_runs g) = 3%nat.
Proof.
  eexists. split; [reflexivity |].
  exact (group_by_benchmark_partition three_runs _ eq_refl).
Defined.

(** ** More on the statistics *)

Lemma filter_length_permutation {A} (f : A -> bool) (l l' : list A) :
  Permutation l l' ->
  List.length (filter f l) = List.length (filter f l').
Proof.
  induction 1 as [| x l l' _ IH | x y l | l l' l'' _ IH1 _ IH2]; simpl.
  - reflexivity.
  - destruct (f x); simpl; now rewrite IH.
  - now destruct (f x), (f y).
  - now rewrite IH1.
Qed.

(** ** The JSON leaderboard *)

Lemma sorted_names (items : groups) :
  string_keyed items ->
  Sorted (fun x y => ItemOrder.leb x y = true) items ->
  StronglySorted str_le (map (fun kv => key_name (fst kv)) items).
Proof.
  intros Hkeys Hsorted.
  apply Sorted_StronglySorted; [intros a b c; apply str_le_trans |].
  induction Hsorted as [| [k rs] items Hs IH Hhd]; [constructor |].
  inversion Hkeys as [| kv kvs [n Hn] Hkeys']; subst kv kvs.
  cbn [fst] in Hn. subst k.
  cbn [map fst key_name]. constructor; [now apply IH |].
  destruct Hhd as [| [k' rs'] items' Hle]; [constructor |].
  inversion Hkeys' as [| kv kvs [m Hm] _]; subst kv kvs.
  cbn [fst] in Hm. subst k'.
  constructor. exact Hle.
Qed.

Lemma sorted_items_strings (g : groups) :
  string_keyed g ->
  exists items,
    sorted_items g = Ok items /\
    Permutation g items /\
    StronglySorted str_le (map (fun kv => key_name (fst kv)) items).
Proof.
  intros Hkeys.
  assert (Hall : forallb (fun kv => is_string (fst kv)) g = true).
  { apply forallb_forall. intros kv Hkv.
    destruct (proj1 (Forall_forall _ _) Hkeys kv Hkv) as [n Hn].
    now rewrite Hn. }
  assert (Hsort : exists items,
             Ok (ItemSort.sort g) = Ok items /\
             Permutation g items /\
             StronglySorted str_le (map (fun kv => key_name (fst kv)) items)).
  { exists (ItemSort.sort g). split; [reflexivity |].
    split; [apply ItemSort.Permuted_sort |].
    apply sorted_names.
    - exact (Permutation_Forall (ItemSort.Permuted_sort g) Hkeys).
    - apply ItemSort.Sorted_sort. }
  destruct g as [| kv1 [| kv2 g]].
  - exists []. repeat split; constructor.
  - exists [kv1]. repeat split; [reflexivity |]. repeat constructor.
  - unfold sorted_items. rewrite Hall. exact Hsort.
Qed.

Lemma group_lookup_of_In (n : string) (rs : list json) (g : groups) :
  NoDup (map fst g) ->
  In (JStr n, rs) g ->
  group_lookup (JStr n) g = Some rs.
Proof.
  induction g as [| [k rs'] g IH]; intros Hnd Hin; [destruct Hin |].
  inversion Hnd as [| k0 ks Hnin Hnd']; subst k0 ks.
  cbn [group_lookup]. destruct Hin as [[= -> ->] | Hin].
  - now rewrite (proj2 (key_eqb_str n (JStr n)) eq_refl).
  - destruct (key_eqb (JStr n) k) eqn:Hk; [| now apply IH].
    apply key_eqb_str in Hk as ->. exfalso. apply Hnin.
    now apply (in_map fst) in Hin.
Qed.

Lemma group_lookup_In (n : string) (rs : list json) (g : groups) :
  group_lookup (JStr n) g = Some rs -> In (JStr n, rs) g.
Proof.
  induction g as [| [k rs'] g IH]; intros Hlook; [discriminate |].
  cbn [group_lookup] in Hlook.
  destruct (key_eqb (JStr n) k) eqn:Hk.
  - apply key_eqb_str in Hk as ->. injection Hlook as ->. now left.
  - right. now apply IH.
Qed.

Lemma group_append_keeps_keys (k r k' : json) (g : groups) :
  In k' (map fst g) -> In k' (map fst (group_append k r g)).
Proof.
  induction g as [| [k0 rs] g IH]; intros Hin; [destruct Hin |].
  cbn [group_append]. destruct (key_eqb k k0); cbn [map fst] in *.
  - exact Hin.
  - destruct Hin as [-> | Hin]; [now left | right; now apply IH].
Qed.

Lemma group_append_has_key (k r : json) (g : groups) :
  key_eqb k k = true ->
  exists k', In k' (map fst (group_append k r g)) /\ key_eqb k k' = true.
Proof.
  intros Hrefl.
  induction g as [| [k0 rs] g IH]; cbn [group_append].
  - exists k. split; [now left | exact Hrefl].
  - destruct (key_eqb k k0) eqn:Hk.
    + exists k0. split; [now left | exact Hk].
    + destruct IH as (k' & Hin & Hk'). exists k'. split; [now right | exact Hk'].
Qed.

(** ** Concrete runs *)



(** * Properties on a host that can fail *)

Lemma bind_inv {A B} (m : M A) (k : A -> M B) (tr tr' : trace) (b : B) :
  bind m k tr = (Ok b, tr') ->
  exists a tr1, m tr = (Ok a, tr1) /\ k a tr1 = (Ok b, tr').
Proof.
  unfold bind. destruct (m tr) as [[a | e] tr1]; [| discriminate].
  intros Hk. now exists a, tr1.
Qed.


Lemma ret_inv {A} (a b : A) (tr tr' : trace) :
  ret a tr = (Ok b, tr') -> a = b /\ tr' = tr.
Proof. unfold ret. intros [= -> ->]. now split. Qed.

(** What the results of the failure paths have under ["error"]. *)
Lemma settle_errors (h : Host) (name : string) (answer : res completed) :
  exists d,
    settle h name answer = JObj d /\
    (forall e, answer = Raise e ->
       dict_get "error" d = Some (JStr (exception_text e))) /\
    (forall c e, answer = Ok c -> json_loads h (stdout c) = Raise e ->
       dict_get "error" d =
         Some (JStr (match exn_cls e with
                     | JSONDecodeError => "Invalid JSON output"
                     | _ => exception_text e
                     end))) /\
    (forall c v, answer = Ok c -> json_loads h (stdout c) = Ok v ->
       (forall d0, v <> JObj d0) ->
       exists msg,
         dict_get "error" d = Some (JStr ("Execution failed: " ++ msg))).
Proof.
  destruct (settle_is_dict h name answer) as [d Hd].
  exists d. split; [exact Hd |]. repeat split.
  - intros e ->. cbn [settle] in Hd.
    rewrite recover_error_result in Hd. now injection Hd as <-.
  - intros c e -> Hload. cbn [settle] in Hd. rewrite Hload in Hd.
    destruct (exn_cls e) eqn:Hc;
      try (rewrite recover_error_result in Hd; unfold exception_text in *;
           rewrite Hc in *; now injection Hd as <-).
    unfold invalid_json_result in Hd. rewrite add_metadata_dict in Hd.
    now injection Hd as <-.
  - intros c v -> Hload Hv. cbn [settle] in Hd. rewrite Hload in Hd.
    destruct (add_metadata_not_dict h name c v Hv) as [msg Hmsg].
    exists msg. rewrite Hmsg in Hd. now injection Hd as <-.
Qed.

Section FullRunnerFacts.

Variable env : Full.Env.
Variable self : BenchmarkRunner.

Local Abbreviation h := (Full.host env).
Local Abbreviation script := (full_script env self).
Local Abbreviation cwd := (full_cwd env self).

(** The five ways a run can go, by what the host answers before the
    [try]. *)
Lemma full_run_benchmark_cases (name : string) (tr : trace) :
  Full.run_benchmark env self name tr =
    match Full.exists_error env (script name) with
    | Some e => (Raise e, tr)
    | None =>
        if fs_exists h (script name) then
          match Full.print_error env (MsgRunning name) with
          | Some e => (Raise e, tr)
          | None =>
              match Full.print_error env (MsgPath (cwd name)) with
              | Some e => (Raise e, (tr ++ [EvPrint (MsgRunning name)])%list)
              | None =>
                  (Ok (settle h name (proc_run h (script name) (cwd name))),
                   (tr ++ full_dispatched env self name)%list)
              end
          end
        else (Ok (error_result h name "verify.sh not found"), tr)
    end.
Proof.
  unfold Full.run_benchmark. fold (full_cwd env self name).
  fold (full_script env self name).
  unfold bind at 1. unfold Full.path_exists, lift.
  destruct (Full.exists_error env (script name)) as [e |]; [reflexivity |].
  destruct (fs_exists h (script name)); [| reflexivity].
  cbn [negb]. unfold bind at 1. unfold Full.print at 1.
  destruct (Full.print_error env (MsgRunning name)) as [e |]; [reflexivity |].
  unfold bind at 1. unfold Full.print at 1.
  destruct (Full.print_error env (MsgPath (cwd name))) as [e |]; [reflexivity |].
  unfold try_except, bind, emit, subprocess_run, lift, ret, settle,
    add_metadata, recover, full_dispatched, bind, emit, lift.
  cbv beta iota. rewrite <- !app_assoc. cbn [app].
  destruct (proc_run h (script name) (cwd name)) as [c | e].
  - destruct (json_loads h (stdout c)) as [v | e].
    + destruct (py_setitem v "exit_code" _) as [v' | e];
        [| now destruct (exn_cls e)].
      destruct (py_setitem v' "execution_time_ms" _) as [v'' | e];
        [reflexivity | now destruct (exn_cls e)].
    + destruct (exn_cls e) eqn:Hc; try reflexivity; now rewrite Hc.
  - now destruct (exn_cls e).
Qed.

Lemma full_run_benchmark_dict (name : string) (tr tr' : trace) (r : json) :
  Full.run_benchmark env self name tr = (Ok r, tr') -> exists d, r = JObj d.
Proof.
  rewrite full_run_benchmark_cases.
  destruct (Full.exists_error env (script name)); [discriminate |].
  destruct (fs_exists h (script name)).
  - destruct (Full.print_error env (MsgRunning name)); [discriminate |].
    destruct (Full.print_error env (MsgPath (cwd name))); [discriminate |].
    intros [= <- _]. apply settle_is_dict.
  - intros [= <- _]. now eexists.
Qed.

(** C3, amended. [run_benchmark] returns a result, with every failure
    turned into a result whose ["error"] is set, whenever the three
    statements that stand before the [try] succeed: the existence test of
    the script and the two progress lines.  An [OSError] that
    [Path.exists] re-raises, or an exception of one of the two [print],
    is not caught and reaches the caller.  Past them, a missing script, a
    timeout or any other exception of the subprocess call, stdout that is
    not JSON, any other exception of the parse, and a parsed value that is
    not a dict each give an error result. *)
Theorem run_benchmark_outcome (name : string) (tr : trace) :
  match Full.exists_error env (script name) with
  | Some e => Full.run_benchmark env self name tr = (Raise e, tr)
  | None =>
      if fs_exists h (script name) then
        match Full.print_error env (MsgRunning name) with
        | Some e => Full.run_benchmark env self name tr = (Raise e, tr)
        | None =>
            match Full.print_error env (MsgPath (cwd name)) with
            | Some e =>
                Full.run_benchmark env self name tr =
                  (Raise e, (tr ++ [EvPrint (MsgRunning name)])%list)
            | None =>
                exists d,
                  Full.run_benchmark env self name tr =
                    (Ok (JObj d), (tr ++ full_dispatched env self name)%list) /\
                  (forall e, proc_run h (script name) (cwd name) = Raise e ->
                     dict_get "error" d = Some (JStr (exception_text e))) /\
                  (forall c e, proc_run h (script name) (cwd name) = Ok c ->
                     json_loads h (stdout c) = Raise e ->
                     dict_get "error" d =
                       Some (JStr (match exn_cls e with
                                   | JSONDecodeError => "Invalid JSON output"
                                   | _ => exception_text e
                                   end))) /\
                  (forall c v, proc_run h (script name) (cwd name) = Ok c ->
                     json_loads h (stdout c) = Ok v ->
                     (forall d0, v <> JObj d0) ->
                     exists msg,
                       dict_get "error" d =
                         Some (JStr ("Execution failed: " ++ msg)))
            end
        end
      else
        exists d,
          Full.run_benchmark env self name tr = (Ok (JObj d), tr) /\
          dict_get "error" d = Some (JStr "verify.sh not found")
  end.
Proof.
  rewrite full_run_benchmark_cases.
  destruct (Full.exists_error env (script name)) as [e |]; [reflexivity |].
  destruct (fs_exists h (script name)).
  - destruct (Full.print_error env (MsgRunning name)) as [e |]; [reflexivity |].
    destruct (Full.print_error env (MsgPath (cwd name))) as [e |];
      [reflexivity |].
    destruct (settle_errors h name (proc_run h (script name) (cwd name)))
      as (d & Hd & Hraise & Hload & Hother).
    exists d. rewrite Hd. split; [reflexivity |]. auto.
  - eexists. split; reflexivity.
Qed.

End FullRunnerFacts.

(** C3 as stated fails on a benchmark name of 300 characters: the
    existence test of the script raises [OSError] before the [try], and
    [run_benchmark] lets it through. *)
Lemma run_benchmark_propagates_oserror :
  Full.exists_error demo_env (full_script demo_env Demo.runner long_name)
    = Some (Exn OSError "[Errno 36] File name too long") /\
  Full.run_benchmark demo_env Demo.runner long_name []
    = (Raise (Exn OSError "[Errno 36] File name too long"), []).
Proof. split; vm_compute; reflexivity. Qed.

(** The timeout of the demo, on the host that can fail. *)
Lemma run_benchmark_outcome_witness :
  exists d,
    Full.run_benchmark demo_env Demo.runner "slow" []
      = (Ok (JObj d), full_dispatched demo_env Demo.runner "slow") /\
    dict_get "error" d = Some (JStr "Execution timeout (300s)").
Proof.
  pose proof (run_benchmark_outcome demo_env Demo.runner "slow" []) as H.
  vm_compute in H. destruct H as (d & Hrun & Hraise & _).
  exists d. split; [vm_compute; exact Hrun |].
  exact (Hraise (Exn TimeoutExpired "Command timed out after 300 seconds")
                eq_refl).
Defined.

(** ** main on a host that can fail *)


Section FullMainFacts.

Variable env : Full.Env.

Local Abbreviation h := (Full.host env).

(** [list_benchmarks] prints nothing. *)
Lemma full_list_loop_frame (self : BenchmarkRunner) (entries : list string)
      (benchmarks : list string) (tr : trace) :
  exists r,
    forall tr : trace,
      for_each entries
        (fun benchmarks name =>
           is_dir <- Full.path_is_dir env
                       (Full.joinpath env (benchmarks_dir self) name) ;;
           if is_dir : bool then
             found <- Full.path_exists env
                        (Full.joinpath env
                           (Full.joinpath env
                              (Full.joinpath env (benchmarks_dir self) name)
                              "verification") "verify.sh") ;;
             if found : bool then ret (benchmarks ++ [name])%list
             else ret benchmarks
           else ret benchmarks)
        benchmarks tr = (r, tr).
Proof.
  revert benchmarks.
  induction entries as [| n entries IH]; intros benchmarks; cbn [for_each].
  - now eexists.
  - unfold bind at 1. unfold bind at 1. unfold Full.path_is_dir at 1, lift at 1.
    destruct (Full.is_dir_error env _) as [e |]; [now eexists |].
    destruct (fs_is_dir h _); [| apply IH].
    unfold bind at 1. unfold Full.path_exists at 1, lift at 1.
    destruct (Full.exists_error env _) as [e |]; [now eexists |].
    destruct (fs_exists h _); apply IH.
Qed.

Lemma full_list_benchmarks_frame (self : BenchmarkRunner) :
  exists r, forall tr, Full.list_benchmarks env self tr = (r, tr).
Proof.
  unfold Full.list_benchmarks.
  destruct (fs_iterdir h (benchmarks_dir self)) as [entries | e] eqn:Hls.
  - destruct (full_list_loop_frame self entries [] []) as [[bs | e] Hloop].
    + exists (Ok (sorted bs)). intros tr.
      unfold bind at 1, lift at 1. unfold bind. now rewrite Hloop.
    + exists (Raise e). intros tr.
      unfold bind at 1, lift at 1. unfold bind. now rewrite Hloop.
  - exists (Raise e). intros tr. reflexivity.
Qed.

(** Each turn of the sweep appends the result of one run. *)
Lemma full_sweep_inv (self : BenchmarkRunner) (names : list string)
      (collected collected' : list json) (tr tr' : trace) :
  for_each names
    (fun collected benchmark =>
       result <- Full.run_benchmark env self benchmark ;;
       passed <- lift (py_get result "passed" (JBool false)) ;;
       score <- lift (py_get result "final_score" (JInt 0)) ;;
       Full.print env (MsgStatus (truthy passed) score) ;;
       ret (collected ++ [result])%list)
    collected tr = (Ok collected', tr') ->
  exists rs,
    collected' = (collected ++ rs)%list /\ Forall2 (ran env self) names rs.
Proof.
  revert collected tr.
  induction names as [| n names IH]; intros collected tr; cbn [for_each].
  - intros [= <- _]. exists []. split; [now rewrite app_nil_r | constructor].
  - intros Hrun.
    apply bind_inv in Hrun as (acc & tr1 & Hbody & Hrest).
    apply bind_inv in Hbody as (result & tr2 & Hres & Hbody).
    apply bind_inv in Hbody as (passed & tr3 & _ & Hbody).
    apply bind_inv in Hbody as (score & tr4 & _ & Hbody).
    apply bind_inv in Hbody as (u & tr5 & _ & Hbody).
    apply ret_inv in Hbody as [<- _].
    destruct (IH _ _ Hrest) as (rs & -> & Hrs).
    exists (result :: rs). split; [now rewrite <- app_assoc |].
    constructor; [now exists tr, tr2 | exact Hrs].
Qed.

Lemma full_run_all_inv (self : BenchmarkRunner) (report : Report)
      (tr tr' : trace) :
  Full.run_all_benchmarks env self tr = (Ok report, tr') ->
  exists names,
    Full.list_benchmarks env self tr = (Ok names, tr) /\
    total_benchmarks report = List.length names /\
    Forall2 (ran env self) names (results report).
Proof.
  unfold Full.run_all_benchmarks. intros Hrun.
  apply bind_inv in Hrun as (names & tr1 & Hlist & Hrun).
  destruct (full_list_benchmarks_frame self) as [r Hframe].
  rewrite Hframe in Hlist. injection Hlist as -> <-.
  apply bind_inv in Hrun as (collected & tr2 & Hloop & Hrun).
  apply ret_inv in Hrun as [<- _].
  apply full_sweep_inv in Hloop as (rs & -> & Hrs).
  exists names. split; [apply Hframe |]. split; [reflexivity | exact Hrs].
Qed.


End FullMainFacts.



(** ** load_results on a host that can fail *)

Section FullLoaderFacts.

Variable env : Full.Env.
Variable self : LeaderboardGenerator.

Local Abbreviation h := (Full.host env).

Lemma full_load_loop (names : list string) (results : list json) (tr : trace) :
  warnings_print env self names ->
  for_each names
    (fun results name =>
       try_except (load_file h (full_file env self name) results)
         (fun e => Some (Full.print env (MsgWarnLoad (full_file env self name) e) ;;
                         ret results)))
    results tr
  = (Ok (results ++ flat_map (full_contribution env self) names)%list,
     (tr ++ flat_map (full_warning env self) names)%list).
Proof.
  revert results tr.
  induction names as [| n names IH]; intros results tr Hprint; simpl.
  - unfold ret. now rewrite !app_nil_r.
  - assert (Hrest : warnings_print env self names).
    { intros name e Hin. apply Hprint. now right. }
    unfold bind at 1. unfold try_except at 1. rewrite load_file_frame.
    unfold full_contribution at 1, full_warning at 1.
    pose proof (Hprint n) as Hn. unfold loaded in *.
    destruct (fst (load_file h (full_file env self n) [] [])) as [items | e].
    + rewrite IH by exact Hrest. now rewrite <- app_assoc.
    + unfold bind at 1, Full.print, ret.
      rewrite (Hn e (or_introl eq_refl) eq_refl).
      rewrite IH by exact Hrest. now rewrite <- app_assoc.
Qed.

Lemma full_load_loop_abort (pre post : list string) (name : string)
      (e e' : exn) (results : list json) (tr : trace) :
  warnings_print env self pre ->
  loaded env self name = Raise e ->
  Full.print_error env (MsgWarnLoad (full_file env self name) e) = Some e' ->
  for_each (pre ++ name :: post)
    (fun results name =>
       try_except (load_file h (full_file env self name) results)
         (fun e => Some (Full.print env (MsgWarnLoad (full_file env self name) e) ;;
                         ret results)))
    results tr
  = (Raise e', (tr ++ flat_map (full_warning env self) pre)%list).
Proof.
  intros Hpre Hload Hfail. revert results tr.
  induction pre as [| n pre IH]; intros results tr; simpl.
  - unfold bind at 1. unfold try_except at 1. rewrite load_file_frame.
    unfold loaded in Hload. rewrite Hload.
    unfold bind at 1, Full.print. rewrite Hfail. now rewrite app_nil_r.
  - assert (Hrest : warnings_print env self pre).
    { intros name' e0 Hin. apply Hpre. now right. }
    unfold bind at 1. unfold try_except at 1. rewrite load_file_frame.
    unfold full_warning at 1.
    pose proof (Hpre n) as Hn. unfold loaded in Hn |- *.
    destruct (fst (load_file h (full_file env self n) [] [])) as [items | e0].
    + rewrite IH by exact Hrest. reflexivity.
    + unfold bind at 1, Full.print, ret.
      rewrite (Hn e0 (or_introl eq_refl) eq_refl).
      rewrite IH by exact Hrest. now rewrite <- app_assoc.
Qed.

(** C5, amended. [load_results] raises what [glob] raises.  Otherwise it
    goes through the files in the order of the glob, and each file either
    adds to the results or is skipped with a warning; when a warning
    cannot be printed, the exception of [print] ends the load.  When every
    warning that is due is printed, the list of all additions is returned.

    What a file adds: nothing, with a warning, when it cannot be read or
    parsed.  When it parses to a dict without a ["results"] key, the dict;
    with one, the elements of the value under it -- the items of a list,
    the characters of a string, the keys of a dict -- and nothing, with a
    warning, when that value cannot be iterated.  A list or a string is
    added whole, unless ["results"] is an item of the list or occurs in
    the string: then the subscript raises and the file is skipped with a
    warning.  A bare number, boolean or [null] is skipped with a warning:
    the test [in] raises on it. *)
Theorem load_results_outcome (tr : trace) :
  match Full.glob_error env (results_dir self) "*.json" with
  | Some e => Full.load_results env self tr = (Raise e, tr)
  | None =>
      (warnings_print env self (fs_glob h (results_dir self) "*.json") ->
       Full.load_results env self tr =
         (Ok (flat_map (full_contribution env self)
                       (fs_glob h (results_dir self) "*.json")),
          (tr ++ flat_map (full_warning env self)
                          (fs_glob h (results_dir self) "*.json"))%list)) /\
      (forall pre name post e e',
         fs_glob h (results_dir self) "*.json" = (pre ++ name :: post)%list ->
         warnings_print env self pre ->
         loaded env self name = Raise e ->
         Full.print_error env (MsgWarnLoad (full_file env self name) e) = Some e' ->
         Full.load_results env self tr =
           (Raise e', (tr ++ flat_map (full_warning env self) pre)%list))
  end /\
  forall name,
    (forall e, fs_read h (full_file env self name) = Raise e ->
       loaded env self name = Raise e) /\
    (forall text, fs_read h (full_file env self name) = Ok text ->
       (forall e, json_loads h text = Raise e -> loaded env self name = Raise e) /\
       (forall v, json_loads h text = Ok v ->
          match v with
          | JObj d =>
              match dict_get "results" d with
              | None => loaded env self name = Ok [v]
              | Some (JArr xs) => loaded env self name = Ok xs
              | Some (JStr s) => loaded env self name = Ok (chars s)
              | Some (JObj d') => loaded env self name = Ok (keys d')
              | Some _ =>
                  exists msg, loaded env self name = Raise (Exn TypeError msg)
              end
          | JArr xs =>
              if existsb (is_str "results") xs
              then exists msg, loaded env self name = Raise (Exn TypeError msg)
              else loaded env self name = Ok [v]
          | JStr t =>
              if str_contains "results" t
              then exists msg, loaded env self name = Raise (Exn TypeError msg)
              else loaded env self name = Ok [v]
          | _ => exists msg, loaded env self name = Raise (Exn TypeError msg)
          end)).
Proof.
  split.
  - unfold Full.load_results, Full.path_glob.
    destruct (Full.glob_error env (results_dir self) "*.json") as [e |];
      [reflexivity |].
    split.
    + intros Hprint. unfold bind at 1, lift at 1.
      fold (full_file env self).
      exact (full_load_loop _ [] tr Hprint).
    + intros pre name post e e' Hnames Hpre Hload Hfail.
      unfold bind at 1, lift at 1. rewrite Hnames.
      exact (full_load_loop_abort pre post name e e' [] tr Hpre Hload Hfail).
  - intros name. unfold loaded, load_file, bind, lift, ret. split.
    + now intros e ->.
    + intros text ->. split; [now intros e -> |].
      intros v ->.
      destruct v as [| b | z | q | s | xs | d]; simpl; try (now eexists).
      * destruct (str_contains "results" s); [now eexists | reflexivity].
      * destruct (existsb (is_str "results") xs); [now eexists | reflexivity].
      * destruct (dict_get "results" d) as [[| b | z | q | s | xs | d'] |];
          simpl; try reflexivity; now eexists.
Qed.

End FullLoaderFacts.

(** C5 as stated fails in two ways on the results directory of the demo.
    The file [five.json] holds the JSON text [5]: it is read and parsed,
    the value has no ["results"] key, and yet it is not among the results.
    And with a standard output that was closed, the warning for
    [bad.json] cannot be printed and [load_results] raises. *)
Lemma load_results_skips_and_raises :
  (fs_glob Demo.host "/repo/results" "*.json"
     = ["a.json"; "bad.json"; "all.json"; "five.json"] /\
   fs_read Demo.host "/repo/results/five.json" = Ok "5" /\
   json_loads Demo.host "5" = Ok (JInt 5) /\
   Full.load_results demo_env Demo.generator [] =
     (Ok [Demo.alpha_json; Demo.alpha_json; Demo.zeta_json],
      [EvPrint (MsgWarnLoad "/repo/results/bad.json"
                  (Exn JSONDecodeError "Expecting value: line 1 column 1 (char 0)"));
       EvPrint (MsgWarnLoad "/repo/results/five.json"
                  (Exn TypeError "argument of type 'int' is not iterable"))])) /\
  Full.load_results closed_env Demo.generator [] =
    (Raise (Exn ValueError "I/O operation on closed file."), []).
Proof. repeat split. Qed.

(** The batch file of the demo, and the load of the whole directory. *)
Lemma load_results_outcome_witness :
  loaded demo_env Demo.generator "all.json"
    = Ok [Demo.alpha_json; Demo.zeta_json] /\
  fst (Full.load_results demo_env Demo.generator [])
    = Ok [Demo.alpha_json; Demo.alpha_json; Demo.zeta_json].
Proof.
  destruct (load_results_outcome demo_env Demo.generator []) as [Hall Hfile].
  split.
  - destruct (Hfile "all.json") as [_ Htext].
    destruct (Htext Demo.batch_text eq_refl) as [_ Hvalue].
    exact (Hvalue (JObj [("results", JArr [Demo.alpha_json; Demo.zeta_json])])
                  eq_refl).
  - assert (Hglob : Full.glob_error demo_env (results_dir Demo.generator) "*.json"
                   = None) by reflexivity.
    rewrite Hglob in Hall. destruct Hall as [Hrun _].
    rewrite Hrun; [reflexivity |]. intros name e _ _. reflexivity.
Defined.

(** ** Rounding to a double *)

Section Rounding.

Local Open Scope Q_scope.
































End Rounding.

(** ** calculate_statistics with rounding *)

Lemma int_scored_scored (r : json) : int_scored r -> scored r.
Proof.
  intros [Hd [z Hz]]. split; [exact Hd |].
  destruct (final_score_of r); try discriminate; simpl; now eexists.
Qed.


Section FullStatisticsFacts.

Variable env : Full.Env.





End FullStatisticsFacts.



(** ** A sweep on a host that can fail *)

(** X5. Whenever a sweep returns, its report holds exactly one result per
    benchmark that [list_benchmarks] returned, in that order, each of them
    a dict that [run_benchmark] returned for that benchmark;
    [total_benchmarks] is the number of results and [run_timestamp] the
    clock.  A sweep need not return: see [run_all_benchmarks_aborted]. *)
Theorem run_all_benchmarks_returns_report (env : Full.Env)
        (self : BenchmarkRunner) (report : Report) (tr tr' : trace) :
  Full.run_all_benchmarks env self tr = (Ok report, tr') ->
  exists names,
    Full.list_benchmarks env self tr = (Ok names, tr) /\
    Forall2 (fun name result =>
               ran env self name result /\ exists d, result = JObj d)
            names (results report) /\
    total_benchmarks report = List.length (results report) /\
    run_timestamp report = timestamp_now (Full.host env).
Proof.
  intros Hrun.
  destruct (full_run_all_inv env self report tr tr' Hrun)
    as (names & Hlist & Htotal & Hran).
  exists names. split; [exact Hlist |]. split; [| split].
  - eapply Forall2_impl; [| exact Hran].
    intros name result Hone. split; [exact Hone |].
    destruct Hone as (t1 & t2 & Hone).
    exact (full_run_benchmark_dict env self name t1 t2 result Hone).
  - now rewrite Htotal, (Forall2_length Hran).
  - unfold Full.run_all_benchmarks in Hrun.
    apply bind_inv in Hrun as (names' & tr1 & _ & Hrun).
    apply bind_inv in Hrun as (collected & tr2 & _ & Hrun).
    now apply ret_inv in Hrun as [<- _].
Qed.

Lemma run_all_benchmarks_returns_report_witness :
  exists report tr' names,
    Full.run_all_benchmarks demo_env Demo.runner [] = (Ok report, tr') /\
    Full.list_benchmarks demo_env Demo.runner [] = (Ok names, []) /\
    names = ["alpha"; "broken"; "listy"; "slow"; "zeta"] /\
    total_benchmarks report = 5%nat /\
    List.length (results report) = 5%nat.
Proof.
  assert (Hrun : exists report tr',
            Full.run_all_benchmarks demo_env Demo.runner [] = (Ok report, tr')).
  { do 2 eexists. vm_compute. reflexivity. }
  destruct Hrun as (report & tr' & Hrun).
  destruct (run_all_benchmarks_returns_report demo_env Demo.runner report [] tr' Hrun)
    as (names & Hlist & Hran & Htotal & _).
  exists report, tr', names. split; [exact Hrun |]. split; [exact Hlist |].
  assert (Hnames : names = ["alpha"; "broken"; "listy"; "slow"; "zeta"]).
  { vm_compute in Hlist. now injection Hlist as <-. }
  split; [exact Hnames |].
  apply Forall2_length in Hran. rewrite Hnames in Hran. cbn [List.length] in Hran.
  split; [now rewrite Htotal |]. now symmetry.
Defined.

(** A sweep that does not return: with a standard output that encodes
    ASCII only, the status line of the first benchmark cannot be printed;
    the exception leaves the loop, the four other benchmarks are not run
    and the result of the first is lost. *)
Example run_all_benchmarks_aborted :
  Full.run_all_benchmarks ascii_env Demo.runner [] =
    (Raise (Exn ValueError "'ascii' codec can't encode character"),
     full_dispatched ascii_env Demo.runner "alpha").
Proof. vm_compute. reflexivity. Qed.
